(** * bybit-manager-v5: the balance / quantity / precision pipeline

    A shallow embedding of [bybit_manager.py] and of the part of
    [api_client.py] it calls, together with the Python primitives these
    rely on ([float] arithmetic, [round], [math.floor], [float(str)],
    subscripting of decoded JSON).

    Python's [float] is IEEE 754 binary64.  It is modelled with the
    executable specification [spec_float] of the Standard Library at
    [prec = 53], [emax = 1024]; every operation below rounds exactly as the
    interpreter does, so the arithmetic can be evaluated on concrete
    balances and prices. *)

From Stdlib Require Import ZArith QArith List String Ascii Bool Lia.
From Stdlib Require Import Floats.SpecFloat.
Import ListNotations.

Open Scope string_scope.
Open Scope list_scope.
Open Scope Z_scope.

(** ** Python exceptions *)

(** The exceptions the modelled code can raise.  [GatewayError] stands for
    whatever the [pybit] session raises (transport, authentication or
    request errors); [api_client.py] logs and re-raises it unchanged. *)
Inductive exn : Type :=
| IndexError
| KeyError
| ValueError
| TypeError
| OverflowError
| ZeroDivisionError
| AttributeError
| GatewayError (name : string).

Definition exn_name (e : exn) : string :=
  match e with
  | IndexError => "IndexError"
  | KeyError => "KeyError"
  | ValueError => "ValueError"
  | TypeError => "TypeError"
  | OverflowError => "OverflowError"
  | ZeroDivisionError => "ZeroDivisionError"
  | AttributeError => "AttributeError"
  | GatewayError name => name
  end.

(** A computation that returns or raises. *)
Definition result (A : Type) : Type := (exn + A)%type.
Definition Ok {A : Type} (a : A) : result A := inr a.
Definition Raise {A : Type} (e : exn) : result A := inl e.

Definition rbind {A B : Type} (r : result A) (k : A -> result B) : result B :=
  match r with
  | inl e => inl e
  | inr a => k a
  end.

(** ** Binary64 arithmetic *)

Module Py.

Definition prec : Z := 53.
Definition emax : Z := 1024.

Definition float : Type := spec_float.

Definition fzero : float := S754_zero false.

Definition fmul : float -> float -> float := SFmul prec emax.
Definition fadd : float -> float -> float := SFadd prec emax.
Definition fsub : float -> float -> float := SFsub prec emax.

Definition fle (x y : float) : bool := SFleb x y.
Definition flt (x y : float) : bool := SFltb x y.
Definition feq (x y : float) : bool := SFeqb x y.

Definition is_finite (x : float) : bool :=
  match x with
  | S754_zero _ | S754_finite _ _ _ => true
  | S754_infinity _ | S754_nan => false
  end.

(** The binary64 number nearest to [num / den] (ties to even), with sign
    [s].  The quotient is taken with enough bits for one correct rounding,
    whatever the sizes of [num] and [den]. *)
Definition nearest_ratio (s : bool) (num den : positive) : float :=
  let '(mz, ez, lz) := SFdiv_core_binary prec emax (Zpos num) 0 (Zpos den) 0 in
  binary_round_aux prec emax s mz ez lz.

(** [float(n)] for an [int]: correctly rounded, [OverflowError] when the
    integer is too large. *)
Definition float_of_int (n : Z) : result float :=
  match n with
  | Z0 => Ok fzero
  | Zpos p =>
      match nearest_ratio false p 1 with
      | S754_infinity _ => Raise OverflowError
      | f => Ok f
      end
  | Zneg p =>
      match nearest_ratio true p 1 with
      | S754_infinity _ => Raise OverflowError
      | f => Ok f
      end
  end.

(** [a / b] on two [int]s (true division): correctly rounded. *)
Definition int_truediv (a b : Z) : result float :=
  match b with
  | Z0 => Raise ZeroDivisionError
  | _ =>
      let s := xorb (a <? 0) (b <? 0) in
      match Z.abs a with
      | Zpos pa =>
          match nearest_ratio s pa (Z.to_pos (Z.abs b)) with
          | S754_infinity _ => Raise OverflowError
          | f => Ok f
          end
      | _ => Ok (S754_zero s)
      end
  end.

(** [x / y] on two [float]s. *)
Definition float_truediv (x y : float) : result float :=
  match y with
  | S754_zero _ => Raise ZeroDivisionError
  | _ => Ok (SFdiv prec emax x y)
  end.

(** [math.floor(x)]: an [int]. *)
Definition math_floor (x : float) : result Z :=
  match x with
  | S754_nan => Raise ValueError
  | S754_infinity _ => Raise OverflowError
  | S754_zero _ => Ok 0
  | S754_finite s m e => Ok (Z.shiftl (cond_Zopp s (Zpos m)) e)
  end.

(** Nearest integer to [a / b], ties to the even one ([0 <= a], [0 < b]). *)
Definition div_half_even (a b : Z) : Z :=
  let q := a / b in
  let r := a mod b in
  match 2 * r ?= b with
  | Lt => q
  | Gt => q + 1
  | Eq => if Z.even q then q else q + 1
  end.

(** [round(x, ndigits)] for a [float] [x] and an [int] [ndigits >= 0].
    The interpreter converts [x] to the decimal string with [ndigits]
    digits after the point that is nearest to the exact binary value
    (ties to even) and converts that string back, correctly rounded.
    Beyond 323 digits, and on zeros, infinities and NaN, [x] is returned
    as it is; an integral [x] is its own rounding. *)
Definition round (x : float) (ndigits : nat) : float :=
  match x with
  | S754_finite s m e =>
      if (323 <? Z.of_nat ndigits) then x
      else if 0 <=? e then x
      else
        let scale := 10 ^ Z.of_nat ndigits in
        match div_half_even (Zpos m * scale) (2 ^ (- e)) with
        | Zpos n => nearest_ratio s n (Z.to_pos scale)
        | _ => S754_zero s
        end
  | _ => x
  end.

(** *** [float(str)] *)

(** Whitespace that [float] strips from both ends of its argument. *)
Definition is_space (c : ascii) : bool :=
  let n := N_of_ascii c in
  ((9 <=? n) && (n <=? 13) || (n =? 32))%N.

Definition is_digit (c : ascii) : bool :=
  let n := N_of_ascii c in ((48 <=? n) && (n <=? 57))%N.

Definition digit_value (c : ascii) : Z := Z.of_N (N_of_ascii c) - 48.

Definition lower (c : ascii) : ascii :=
  let n := N_of_ascii c in
  if ((65 <=? n) && (n <=? 90))%N then ascii_of_N (n + 32) else c.

Fixpoint lstrip (l : list ascii) : list ascii :=
  match l with
  | c :: l' => if is_space c then lstrip l' else l
  | [] => []
  end.

Definition strip (l : list ascii) : list ascii :=
  rev (lstrip (rev (lstrip l))).

(** Underscores may separate digits: each one must follow a digit and
    precede a digit.  [prev] is the previous character, if any. *)
Fixpoint drop_underscores (prev : option ascii) (l : list ascii)
  : option (list ascii) :=
  match l with
  | [] =>
      match prev with
      | Some "_"%char => None
      | _ => Some []
      end
  | c :: l' =>
      if Ascii.eqb c "_" then
        match prev with
        | Some p => if is_digit p then drop_underscores (Some c) l' else None
        | None => None
        end
      else
        match prev with
        | Some "_"%char =>
            if is_digit c
            then option_map (cons c) (drop_underscores (Some c) l')
            else None
        | _ => option_map (cons c) (drop_underscores (Some c) l')
        end
  end.

(** The longest prefix of digits, and what follows it. *)
Fixpoint span_digits (l : list ascii) : list ascii * list ascii :=
  match l with
  | c :: l' =>
      if is_digit c
      then let '(ds, rest) := span_digits l' in (c :: ds, rest)
      else ([], l)
  | [] => ([], [])
  end.

Definition Z_of_digits (ds : list ascii) : Z :=
  fold_left (fun acc c => 10 * acc + digit_value c) ds 0.

(** An optional sign: [true] for a minus. *)
Definition take_sign (l : list ascii) : bool * list ascii :=
  match l with
  | "-"%char :: l' => (true, l')
  | "+"%char :: l' => (false, l')
  | _ => (false, l)
  end.

(** The binary64 number nearest to [(-1)^s * d * 10^k]. *)
Definition nearest_decimal (s : bool) (d : Z) (k : Z) : float :=
  match d with
  | Zpos p =>
      if 0 <=? k
      then nearest_ratio s (p * Z.to_pos (10 ^ k)) 1
      else nearest_ratio s p (Z.to_pos (10 ^ (- k)))
  | _ => S754_zero s
  end.

(** The exponent part: empty, or [e]/[E], an optional sign and digits. *)
Definition parse_exponent (l : list ascii) : option Z :=
  match l with
  | [] => Some 0
  | c :: l' =>
      if Ascii.eqb (lower c) "e" then
        let '(neg, l'') := take_sign l' in
        match span_digits l'' with
        | ((_ :: _) as ds, []) => Some (cond_Zopp neg (Z_of_digits ds))
        | _ => None
        end
      else None
  end.

(** A decimal numeral: digits with an optional fraction, or a fraction
    alone, then the exponent part. *)
Definition parse_decimal (s : bool) (l : list ascii) : option float :=
  let '(ip, rest) := span_digits l in
  let '(fp, rest') :=
    match rest with
    | "."%char :: r => span_digits r
    | _ => ([], rest)
    end in
  match ip ++ fp with
  | [] => None
  | ds =>
      match parse_exponent rest' with
      | Some ex =>
          Some (nearest_decimal s (Z_of_digits ds) (ex - Z.of_nat (List.length fp)))
      | None => None
      end
  end.

Definition parse_inf_or_nan (s : bool) (l : list ascii) : option float :=
  let w := string_of_list_ascii (map lower l) in
  if (String.eqb w "inf" || String.eqb w "infinity")%bool
  then Some (S754_infinity s)
  else if String.eqb w "nan" then Some S754_nan
  else None.

(** [float(s)] for a [str]: [ValueError] unless [s] is, between optional
    whitespace, a signed decimal numeral, infinity or NaN. *)
Definition float_of_str (s : string) : result float :=
  match drop_underscores None (strip (list_ascii_of_string s)) with
  | None => Raise ValueError
  | Some l =>
      let '(neg, body) := take_sign l in
      match parse_inf_or_nan neg body with
      | Some f => Ok f
      | None =>
          match parse_decimal neg body with
          | Some f => Ok f
          | None => Raise ValueError
          end
      end
  end.

(** A float literal of the examples below; zero when [s] is no numeral. *)
Definition lit (s : string) : float :=
  match float_of_str s with
  | inr f => f
  | inl _ => fzero
  end.

End Py.

(** ** Decoded JSON and Python values *)

(** The values that travel between the manager, the API client and the
    [pybit] session: request arguments and decoded JSON responses.  A
    [dict] keeps its insertion order and has [str] keys. *)
Unset Elimination Schemes.
Inductive pyval : Type :=
| VNone
| VBool (b : bool)
| VInt (n : Z)
| VFloat (f : Py.float)
| VStr (s : string)
| VList (l : list pyval)
| VDict (d : list (string * pyval)).
Set Elimination Schemes.

Definition pydict : Type := list (string * pyval).

Fixpoint dict_get (d : pydict) (k : string) : option pyval :=
  match d with
  | [] => None
  | (k', v) :: d' => if String.eqb k' k then Some v else dict_get d' k
  end.

(** [d[k] = v]: replaces the value of an existing key, else appends. *)
Fixpoint dict_set (d : pydict) (k : string) (v : pyval) : pydict :=
  match d with
  | [] => [(k, v)]
  | (k', v') :: d' =>
      if String.eqb k' k then (k', v) :: d' else (k', v') :: dict_set d' k v
  end.

Definition float_bool (x : Py.float) : bool :=
  match x with
  | S754_zero _ => false
  | _ => true
  end.

(** Truth value of an object, as tested by [if x:]. *)
Definition truthy (v : pyval) : bool :=
  match v with
  | VNone => false
  | VBool b => b
  | VInt n => negb (n =? 0)
  | VFloat f => float_bool f
  | VStr s => negb (String.eqb s EmptyString)
  | VList l => match l with [] => false | _ => true end
  | VDict d => match d with [] => false | _ => true end
  end.

Definition is_not_None (v : pyval) : bool :=
  match v with
  | VNone => false
  | _ => true
  end.

(** [v[k]] for a [str] key. *)
Definition getitem_key (v : pyval) (k : string) : result pyval :=
  match v with
  | VDict d =>
      match dict_get d k with
      | Some x => Ok x
      | None => Raise KeyError
      end
  | _ => Raise TypeError
  end.

(** [v[i]] for an [int] index; a negative index counts from the end. *)
Definition getitem_index (v : pyval) (i : Z) : result pyval :=
  let at_index {A : Type} (l : list A) (wrap : A -> pyval) :=
    let n := Z.of_nat (List.length l) in
    let j := if i <? 0 then i + n else i in
    if (j <? 0) || (n <=? j) then Raise IndexError
    else match nth_error l (Z.to_nat j) with
         | Some x => Ok (wrap x)
         | None => Raise IndexError
         end in
  match v with
  | VList l => at_index l (fun x => x)
  | VStr s => at_index (list_ascii_of_string s) (fun c => VStr (String c EmptyString))
  | VDict _ => Raise KeyError
  | _ => Raise TypeError
  end.

(** [float(v)]. *)
Definition to_float (v : pyval) : result Py.float :=
  match v with
  | VFloat f => Ok f
  | VInt n => Py.float_of_int n
  | VBool b => Py.float_of_int (if b then 1 else 0)
  | VStr s => Py.float_of_str s
  | VNone | VList _ | VDict _ => Raise TypeError
  end.

(** *** Mixed [float] / [int] arithmetic: the [int] is converted first. *)

Definition float_div_int (x : Py.float) (n : Z) : result Py.float :=
  rbind (Py.float_of_int n) (Py.float_truediv x).

Definition float_mul_int (x : Py.float) (n : Z) : result Py.float :=
  rbind (Py.float_of_int n) (fun y => Ok (Py.fmul x y)).

Definition int_add_float (n : Z) (x : Py.float) : result Py.float :=
  rbind (Py.float_of_int n) (fun y => Ok (Py.fadd y x)).

Definition int_sub_float (n : Z) (x : Py.float) : result Py.float :=
  rbind (Py.float_of_int n) (fun y => Ok (Py.fsub y x)).

(** *** Strings *)

Fixpoint contains_char (c : ascii) (s : string) : bool :=
  match s with
  | EmptyString => false
  | String c' s' => Ascii.eqb c' c || contains_char c s'
  end.

(** [s.split(c)] for a one-character separator: the pieces between the
    occurrences of [c], in order; never empty. *)
Fixpoint str_split (c : ascii) (s : string) : list string :=
  match s with
  | EmptyString => [EmptyString]
  | String c' s' =>
      if Ascii.eqb c' c then EmptyString :: str_split c s'
      else match str_split c s' with
           | piece :: rest => String c' piece :: rest
           | [] => [String c' EmptyString]
           end
  end.

(** ** [types_1.py]: the enumerations and their wire values *)

Module Category.
Inductive t : Set := SPOT | LINEAR | INVERSE | OPTION.
Definition value (c : t) : string :=
  match c with
  | SPOT => "spot" | LINEAR => "linear"
  | INVERSE => "inverse" | OPTION => "option"
  end.
End Category.

Module OrderType.
Inductive t : Set := MARKET | LIMIT.
Definition value (o : t) : string :=
  match o with MARKET => "Market" | LIMIT => "Limit" end.
End OrderType.

Module Side.
Inductive t : Set := BUY | SELL.
Definition value (s : t) : string :=
  match s with BUY => "Buy" | SELL => "Sell" end.
End Side.

Module TimeInForce.
Inductive t : Set := GTC | IOC | FOK | POST_ONLY.
Definition value (x : t) : string :=
  match x with
  | GTC => "GTC" | IOC => "IOC" | FOK => "FOK" | POST_ONLY => "PostOnly"
  end.
End TimeInForce.

Module AccountType.
Inductive t : Set := SPOT | CONTRACT | UNIFIED.
Definition value (a : t) : string :=
  match a with
  | SPOT => "SPOT" | CONTRACT => "CONTRACT" | UNIFIED => "UNIFIED"
  end.
End AccountType.

Module TriggerDirection.
Inductive t : Set := RISES_TO | FALLS_TO.
Definition value (d : t) : Z :=
  match d with RISES_TO => 1 | FALLS_TO => 2 end.
End TriggerDirection.

Module TriggerBy.
Inductive t : Set := LAST_PRICE | INDEX_PRICE | MARK_PRICE.
Definition value (x : t) : string :=
  match x with
  | LAST_PRICE => "LastPrice"
  | INDEX_PRICE => "IndexPrice"
  | MARK_PRICE => "MarkPrice"
  end.
End TriggerBy.

Module OrderFilter.
Inductive t : Set := ORDER | TP_SL_ORDER | STOP_ORDER.
Definition value (x : t) : string :=
  match x with
  | ORDER => "Order" | TP_SL_ORDER => "tpslOrder" | STOP_ORDER => "StopOrder"
  end.
End OrderFilter.

Module TP_SL_Mode.
Inductive t : Set := FULL | PARTIAL.
Definition value (x : t) : string :=
  match x with FULL => "Full" | PARTIAL => "Partial" end.
End TP_SL_Mode.

Module TP_SL_OrderType.
Inductive t : Set := MARKET | LIMIT.
Definition value (x : t) : string :=
  match x with MARKET => "Market" | LIMIT => "Limit" end.
End TP_SL_OrderType.

(** ** The exchange gateway and the call monad *)

(** The methods of the [pybit] HTTP session that the modelled code calls. *)
Inductive endpoint : Set :=
| HTTP_place_order
| HTTP_get_wallet_balance
| HTTP_get_open_orders
| HTTP_get_instruments_info.

Definition endpoint_eqb (a b : endpoint) : bool :=
  match a, b with
  | HTTP_place_order, HTTP_place_order
  | HTTP_get_wallet_balance, HTTP_get_wallet_balance
  | HTTP_get_open_orders, HTTP_get_open_orders
  | HTTP_get_instruments_info, HTTP_get_instruments_info => true
  | _, _ => false
  end.

(** One remote call: the method and the keyword arguments it was given. *)
Definition call : Type := (endpoint * pydict)%type.

(** What a run can observe and change: the exchange, a black box with a
    state [G] of its own, and the log of the calls submitted to it so far
    (oldest first). *)
Record world (G : Type) : Type := World { exchange : G; submitted : list call }.
Arguments World {G} _ _.
Arguments exchange {G} _.
Arguments submitted {G} _.

(** State and exception monad of the manager's methods.  When a method
    raises, the world it leaves behind is kept: calls already submitted
    stay submitted. *)
Definition M (G A : Type) : Type := world G -> result A * world G.

Definition ret {G A : Type} (a : A) : M G A := fun w => (Ok a, w).

Definition bind {G A B : Type} (m : M G A) (k : A -> M G B) : M G B :=
  fun w =>
    match m w with
    | (inl e, w') => (inl e, w')
    | (inr a, w') => k a w'
    end.

Definition lift {G A : Type} (r : result A) : M G A := fun w => (r, w).

Declare Scope py_scope.
Delimit Scope py_scope with py.
Notation "x <- m ;; k" := (bind m (fun x => k))
  (at level 61, m at next level, right associativity) : py_scope.
Notation "x <~ r ;; k" := (rbind r (fun x => k))
  (at level 61, r at next level, right associativity) : py_scope.
Open Scope py_scope.

(** A chain of subscripts [v[s1][s2]...], evaluated left to right. *)
Inductive subscript : Type :=
| Key (key : string)
| Idx (index : Z).

Definition getitem (v : pyval) (s : subscript) : result pyval :=
  match s with
  | Key k => getitem_key v k
  | Idx i => getitem_index v i
  end.

Fixpoint subscripts (v : pyval) (path : list subscript) : result pyval :=
  match path with
  | [] => Ok v
  | s :: path' => x <~ getitem v s ;; subscripts x path'
  end.

Section Manager.

(** A call of the exchange answers with a decoded JSON document or
    raises, and moves the state of the exchange. *)
Variable G : Type.
Variable session : endpoint -> pydict -> G -> result pyval * G.

(** A call of a session method with the keyword arguments [kwargs]. *)
Definition session_call (ep : endpoint) (kwargs : pydict) : M G pyval :=
  fun w =>
    let '(r, g) := session ep kwargs (exchange w) in
    (r, World g (submitted w ++ [(ep, kwargs)])).

(** ** [api_client.py] *)

(** The parameters of [ApiClient.place_order].  Parameters annotated
    [str = None] receive whatever object the caller passes, so they are
    [pyval]s with [VNone] for the default. *)
Record order_args : Type := OrderArgs {
  category : Category.t;
  symbol : string;
  side : Side.t;
  order_type : OrderType.t;
  qty : pyval;
  price : pyval;
  time_in_force : TimeInForce.t;
  order_link_id : pyval;
  is_leverage : Z;
  order_filter : OrderFilter.t;
  market_unit : pyval;
  trigger_price : pyval;
  trigger_direction : option TriggerDirection.t;
  trigger_by : option TriggerBy.t;
  take_profit : pyval;
  stop_loss : pyval;
  tp_trigger_by : option TriggerBy.t;
  sl_trigger_by : option TriggerBy.t;
  reduce_only : option bool;
  close_on_trigger : option bool;
  tp_sl_mode : option TP_SL_Mode.t;
  tp_limit_price : pyval;
  sl_limit_price : pyval;
  tp_order_type : option TP_SL_OrderType.t;
  sl_order_type : option TP_SL_OrderType.t
}.

(** A call that passes the five required arguments and leaves every other
    parameter at its default. *)
Definition order_defaults (c : Category.t) (sym : string) (sd : Side.t)
    (ot : OrderType.t) (q : pyval) : order_args :=
  {| category := c; symbol := sym; side := sd; order_type := ot; qty := q;
     price := VNone; time_in_force := TimeInForce.IOC;
     order_link_id := VNone; is_leverage := 0;
     order_filter := OrderFilter.ORDER; market_unit := VNone;
     trigger_price := VNone; trigger_direction := None; trigger_by := None;
     take_profit := VNone; stop_loss := VNone;
     tp_trigger_by := None; sl_trigger_by := None;
     reduce_only := None; close_on_trigger := None; tp_sl_mode := None;
     tp_limit_price := VNone; sl_limit_price := VNone;
     tp_order_type := None; sl_order_type := None |}.

(** Keyword arguments a caller passes besides the required ones. *)
Definition with_price (v : pyval) (a : order_args) : order_args :=
  {| category := category a; symbol := symbol a; side := side a;
     order_type := order_type a; qty := qty a; price := v;
     time_in_force := time_in_force a; order_link_id := order_link_id a;
     is_leverage := is_leverage a; order_filter := order_filter a;
     market_unit := market_unit a; trigger_price := trigger_price a;
     trigger_direction := trigger_direction a; trigger_by := trigger_by a;
     take_profit := take_profit a; stop_loss := stop_loss a;
     tp_trigger_by := tp_trigger_by a; sl_trigger_by := sl_trigger_by a;
     reduce_only := reduce_only a; close_on_trigger := close_on_trigger a;
     tp_sl_mode := tp_sl_mode a; tp_limit_price := tp_limit_price a;
     sl_limit_price := sl_limit_price a; tp_order_type := tp_order_type a;
     sl_order_type := sl_order_type a |}.

Definition with_time_in_force (v : TimeInForce.t) (a : order_args) : order_args :=
  {| category := category a; symbol := symbol a; side := side a;
     order_type := order_type a; qty := qty a; price := price a;
     time_in_force := v; order_link_id := order_link_id a;
     is_leverage := is_leverage a; order_filter := order_filter a;
     market_unit := market_unit a; trigger_price := trigger_price a;
     trigger_direction := trigger_direction a; trigger_by := trigger_by a;
     take_profit := take_profit a; stop_loss := stop_loss a;
     tp_trigger_by := tp_trigger_by a; sl_trigger_by := sl_trigger_by a;
     reduce_only := reduce_only a; close_on_trigger := close_on_trigger a;
     tp_sl_mode := tp_sl_mode a; tp_limit_price := tp_limit_price a;
     sl_limit_price := sl_limit_price a; tp_order_type := tp_order_type a;
     sl_order_type := sl_order_type a |}.

Definition with_order_filter (v : OrderFilter.t) (a : order_args) : order_args :=
  {| category := category a; symbol := symbol a; side := side a;
     order_type := order_type a; qty := qty a; price := price a;
     time_in_force := time_in_force a; order_link_id := order_link_id a;
     is_leverage := is_leverage a; order_filter := v;
     market_unit := market_unit a; trigger_price := trigger_price a;
     trigger_direction := trigger_direction a; trigger_by := trigger_by a;
     take_profit := take_profit a; stop_loss := stop_loss a;
     tp_trigger_by := tp_trigger_by a; sl_trigger_by := sl_trigger_by a;
     reduce_only := reduce_only a; close_on_trigger := close_on_trigger a;
     tp_sl_mode := tp_sl_mode a; tp_limit_price := tp_limit_price a;
     sl_limit_price := sl_limit_price a; tp_order_type := tp_order_type a;
     sl_order_type := sl_order_type a |}.

Definition with_market_unit (v : pyval) (a : order_args) : order_args :=
  {| category := category a; symbol := symbol a; side := side a;
     order_type := order_type a; qty := qty a; price := price a;
     time_in_force := time_in_force a; order_link_id := order_link_id a;
     is_leverage := is_leverage a; order_filter := order_filter a;
     market_unit := v; trigger_price := trigger_price a;
     trigger_direction := trigger_direction a; trigger_by := trigger_by a;
     take_profit := take_profit a; stop_loss := stop_loss a;
     tp_trigger_by := tp_trigger_by a; sl_trigger_by := sl_trigger_by a;
     reduce_only := reduce_only a; close_on_trigger := close_on_trigger a;
     tp_sl_mode := tp_sl_mode a; tp_limit_price := tp_limit_price a;
     sl_limit_price := sl_limit_price a; tp_order_type := tp_order_type a;
     sl_order_type := sl_order_type a |}.

Definition with_trigger_price (v : pyval) (a : order_args) : order_args :=
  {| category := category a; symbol := symbol a; side := side a;
     order_type := order_type a; qty := qty a; price := price a;
     time_in_force := time_in_force a; order_link_id := order_link_id a;
     is_leverage := is_leverage a; order_filter := order_filter a;
     market_unit := market_unit a; trigger_price := v;
     trigger_direction := trigger_direction a; trigger_by := trigger_by a;
     take_profit := take_profit a; stop_loss := stop_loss a;
     tp_trigger_by := tp_trigger_by a; sl_trigger_by := sl_trigger_by a;
     reduce_only := reduce_only a; close_on_trigger := close_on_trigger a;
     tp_sl_mode := tp_sl_mode a; tp_limit_price := tp_limit_price a;
     sl_limit_price := sl_limit_price a; tp_order_type := tp_order_type a;
     sl_order_type := sl_order_type a |}.

(** [if cond: d[k] = v] *)
Definition set_if (cond : bool) (k : string) (v : pyval) (d : pydict) : pydict :=
  if cond then dict_set d k v else d.

(** [if x: d[k] = x.value] for an optional enumeration member; members are
    always true. *)
Definition set_some {A : Type} (x : option A) (k : string) (value : A -> pyval)
    (d : pydict) : pydict :=
  match x with
  | Some a => dict_set d k (value a)
  | None => d
  end.

(** The payload [ApiClient.place_order] builds, in the order of the code. *)
Definition order_data (a : order_args) : pydict :=
  let d :=
    [ ("category", VStr (Category.value (category a)));
      ("symbol", VStr (symbol a));
      ("side", VStr (Side.value (side a)));
      ("orderType", VStr (OrderType.value (order_type a)));
      ("qty", qty a);
      ("timeInForce", VStr (TimeInForce.value (time_in_force a)));
      ("isLeverage", VInt (is_leverage a));
      ("orderFilter", VStr (OrderFilter.value (order_filter a))) ] in
  let d := set_if (is_not_None (price a)) "price" (price a) d in
  let d := set_if (truthy (order_link_id a)) "orderLinkId" (order_link_id a) d in
  let d := set_if (truthy (market_unit a)) "marketUnit" (market_unit a) d in
  let d := set_if (truthy (trigger_price a)) "triggerPrice" (trigger_price a) d in
  let d := set_some (trigger_direction a) "triggerDirection"
             (fun x => VInt (TriggerDirection.value x)) d in
  let d := set_some (trigger_by a) "triggerBy"
             (fun x => VStr (TriggerBy.value x)) d in
  let d := set_if (truthy (take_profit a)) "takeProfit" (take_profit a) d in
  let d := set_if (truthy (stop_loss a)) "stopLoss" (stop_loss a) d in
  let d := set_some (tp_trigger_by a) "tpTriggerBy"
             (fun x => VStr (TriggerBy.value x)) d in
  let d := set_some (sl_trigger_by a) "slTriggerBy"
             (fun x => VStr (TriggerBy.value x)) d in
  let d := set_some (reduce_only a) "reduceOnly" VBool d in
  let d := set_some (close_on_trigger a) "closeOnTrigger" VBool d in
  let d := set_some (tp_sl_mode a) "tpslMode"
             (fun x => VStr (TP_SL_Mode.value x)) d in
  let d := set_if (truthy (tp_limit_price a)) "tpLimitPrice" (tp_limit_price a) d in
  let d := set_if (truthy (sl_limit_price a)) "slLimitPrice" (sl_limit_price a) d in
  let d := set_some (tp_order_type a) "tpOrderType"
             (fun x => VStr (TP_SL_OrderType.value x)) d in
  set_some (sl_order_type a) "slOrderType"
    (fun x => VStr (TP_SL_OrderType.value x)) d.

(** [ApiClient.place_order]: the [except] clause logs and re-raises. *)
Definition place_order (a : order_args) : M G pyval :=
  session_call HTTP_place_order (order_data a).

(** [ApiClient.get_wallet_balance] *)
Definition get_wallet_balance (account_type : AccountType.t) (coin : pyval)
  : M G pyval :=
  let params := [("accountType", VStr (AccountType.value account_type))] in
  let params := set_if (truthy coin) "coin" coin params in
  session_call HTTP_get_wallet_balance params.

(** [ApiClient.get_order_by_id]: queries the open-orders method. *)
Definition get_order_by_id (c : Category.t) (order_id : pyval) : M G pyval :=
  session_call HTTP_get_open_orders
    [("category", VStr (Category.value c)); ("orderId", order_id)].

(** [ApiClient.get_instruments_info]; [status], [base_coin], [limit] and
    [cursor] are never passed by the manager and stay [None]. *)
Definition get_instruments_info (c : Category.t) (sym : pyval) : M G pyval :=
  let params := [("category", VStr (Category.value c))] in
  let params := set_if (truthy sym) "symbol" sym params in
  session_call HTTP_get_instruments_info params.

(** ** [bybit_manager.py] *)

(** [BybitManager._count_decimal_places].  The exchange sends step sizes
    as JSON strings.  On another JSON value the membership test ['.' in
    value] raises [TypeError] unless the value is a container, and a
    container that holds ['.'] has no [split]. *)
Definition _count_decimal_places (value : pyval) : result nat :=
  match value with
  | VStr s =>
      if contains_char "." s then
        match nth_error (str_split "." s) 1 with
        | Some piece => Ok (String.length piece)
        | None => Raise IndexError
        end
      else Ok 0%nat
  | VList l =>
      if existsb (fun x => match x with
                           | VStr t => String.eqb t "."
                           | _ => false
                           end) l
      then Raise AttributeError else Ok 0%nat
  | VDict d =>
      match dict_get d "." with
      | Some _ => Raise AttributeError
      | None => Ok 0%nat
      end
  | VNone | VBool _ | VInt _ | VFloat _ => Raise TypeError
  end.

(** [BybitManager._round_to_precision]: [factor] is an [int], the product
    a [float], [math.floor] gives an [int] and the quotient of the two
    [int]s is a [float]. *)
Definition _round_to_precision (value : Py.float) (precision : nat)
  : result Py.float :=
  let factor := 10 ^ Z.of_nat precision in
  scaled <~ float_mul_int value factor ;;
  n <~ Py.math_floor scaled ;;
  Py.int_truediv n factor.

(** [BybitManager.get_balance] *)
Definition get_balance (coin : string) : M G Py.float :=
  balance <- get_wallet_balance AccountType.UNIFIED (VStr coin) ;;
  lift (x <~ subscripts balance
               [Key "result"; Key "list"; Idx 0; Key "coin"; Idx 0;
                Key "availableToWithdraw"] ;;
        to_float x).

(** [BybitManager._calculate_order_qty] *)
Definition _calculate_order_qty (symbol : string)
    (percent_of_balance : Py.float) : M G Py.float :=
  usdt_balance <- get_balance "USDT" ;;
  lift (share <~ float_div_int percent_of_balance 100 ;;
        let qty_in_usdt := Py.fmul usdt_balance share in
        Ok (Py.round qty_in_usdt 0)).

(** [BybitManager._execute_market_order] *)
Definition _execute_market_order (symbol : string) (side : Side.t)
    (percent_of_balance : Py.float) : M G pyval :=
  qty <- _calculate_order_qty symbol percent_of_balance ;;
  response <- place_order
    (with_market_unit (VStr "quoteCoin")
       (order_defaults Category.SPOT symbol side OrderType.MARKET
          (VFloat qty))) ;;
  lift (subscripts response [Key "result"; Key "orderId"]).

(** [BybitManager._get_avg_price] *)
Definition _get_avg_price (category : Category.t) (order_id : pyval)
  : M G Py.float :=
  order_data <- get_order_by_id category order_id ;;
  lift (x <~ subscripts order_data
               [Key "result"; Key "list"; Idx 0; Key "avgPrice"] ;;
        to_float x).

(** [BybitManager._get_qty_precision] *)
Definition _get_qty_precision (category : Category.t) (symbol : string)
  : M G nat :=
  lot_size_filter <- get_instruments_info category (VStr symbol) ;;
  lift (precision_str <~ subscripts lot_size_filter
               [Key "result"; Key "list"; Idx 0; Key "lotSizeFilter";
                Key "basePrecision"] ;;
        _count_decimal_places precision_str).

(** [BybitManager._get_price_precision] *)
Definition _get_price_precision (category : Category.t) (symbol : string)
  : M G nat :=
  tick_size_filter <- get_instruments_info category (VStr symbol) ;;
  lift (precision_str <~ subscripts tick_size_filter
               [Key "result"; Key "list"; Idx 0; Key "priceFilter"; Key "tickSize"] ;;
        _count_decimal_places precision_str).

(** [BybitManager._get_formatted_balance]; [float(balance)] leaves the
    [float] that [get_balance] returned as it is. *)
Definition _get_formatted_balance (coin symbol : string) : M G Py.float :=
  balance <- get_balance coin ;;
  precision <- _get_qty_precision Category.SPOT symbol ;;
  lift (_round_to_precision balance precision).

(** [BybitManager._calculate_target_price] *)
Definition _calculate_target_price (symbol : string) (avg_price : Py.float)
    (percentage : Py.float) (is_take_profit : bool) : M G Py.float :=
  multiplier <- lift (share <~ float_div_int percentage 100 ;;
                      if is_take_profit then int_add_float 1 share
                      else int_sub_float 1 share) ;;
  let target_price := Py.fmul avg_price multiplier in
  precision <- _get_price_precision Category.SPOT symbol ;;
  ret (Py.round target_price precision).

(** [BybitManager._place_limit_order] *)
Definition _place_limit_order (symbol : string) (qty price : Py.float)
    (side : Side.t) (time_in_force : TimeInForce.t) : M G pyval :=
  response <- place_order
    (with_time_in_force time_in_force
       (with_price (VFloat price)
          (order_defaults Category.SPOT symbol side OrderType.LIMIT
             (VFloat qty)))) ;;
  lift (subscripts response [Key "result"; Key "orderId"]).

(** [BybitManager._place_stop_loss] *)
Definition _place_stop_loss (symbol : string) (qty trigger_price : Py.float)
  : M G pyval :=
  response <- place_order
    (with_order_filter OrderFilter.STOP_ORDER
       (with_trigger_price (VFloat trigger_price)
          (order_defaults Category.SPOT symbol Side.SELL OrderType.MARKET
             (VFloat qty)))) ;;
  ret response.

(** [BybitManager._set_take_profit]; [time_in_force] takes its default,
    [TimeInForce.GTC]. *)
Definition _set_take_profit (avg_price qty : Py.float) (symbol : string)
    (tp_percentage : Py.float) : M G unit :=
  tp_price <- _calculate_target_price symbol avg_price tp_percentage true ;;
  _ <- _place_limit_order symbol qty tp_price Side.SELL TimeInForce.GTC ;;
  ret tt.

(** [BybitManager._set_stop_loss] *)
Definition _set_stop_loss (avg_price qty : Py.float) (symbol : string)
    (sl_percentage : Py.float) : M G unit :=
  sl_price <- _calculate_target_price symbol avg_price sl_percentage false ;;
  _ <- _place_stop_loss symbol qty sl_price ;;
  ret tt.

(** [if percentage: leg]: [None] and a zero percentage are both false. *)
Definition if_percentage (percentage : option Py.float)
    (leg : Py.float -> M G unit) : M G unit :=
  match percentage with
  | Some p => if float_bool p then leg p else ret tt
  | None => ret tt
  end.

(** [BybitManager.place_market_order_spot_to_usdt] *)
Definition place_market_order_spot_to_usdt (coin : string) (side : Side.t)
    (percent_of_balance : Py.float)
    (tp_percentage sl_percentage : option Py.float) : M G unit :=
  let symbol := (coin ++ "USDT")%string in
  order_id <- _execute_market_order symbol side percent_of_balance ;;
  avg_price <- _get_avg_price Category.SPOT order_id ;;
  qty <- _get_formatted_balance coin symbol ;;
  _ <- if_percentage sl_percentage (_set_stop_loss avg_price qty symbol) ;;
  if_percentage tp_percentage (_set_take_profit avg_price qty symbol).

End Manager.

Arguments session_call {G} session ep kwargs _.
Arguments place_order {G} session a _.
Arguments get_wallet_balance {G} session account_type coin _.
Arguments get_order_by_id {G} session c order_id _.
Arguments get_instruments_info {G} session c sym _.
Arguments get_balance {G} session coin _.
Arguments _calculate_order_qty {G} session symbol percent_of_balance _.
Arguments _execute_market_order {G} session symbol side percent_of_balance _.
Arguments _get_avg_price {G} session category order_id _.
Arguments _get_qty_precision {G} session category symbol _.
Arguments _get_price_precision {G} session category symbol _.
Arguments _get_formatted_balance {G} session coin symbol _.
Arguments _calculate_target_price {G} session symbol avg_price percentage
  is_take_profit _.
Arguments _place_limit_order {G} session symbol qty price side time_in_force _.
Arguments _place_stop_loss {G} session symbol qty trigger_price _.
Arguments _set_take_profit {G} session avg_price qty symbol tp_percentage _.
Arguments _set_stop_loss {G} session avg_price qty symbol sl_percentage _.
Arguments if_percentage {G} percentage leg _.
Arguments place_market_order_spot_to_usdt {G} session coin side
  percent_of_balance tp_percentage sl_percentage _.

(** ** Observations on a run *)

(** The payloads of the orders submitted, oldest first. *)
Definition orders (calls : list call) : list pydict :=
  map snd (filter (fun c => endpoint_eqb (fst c) HTTP_place_order) calls).

(** The sell orders among them: the take-profit and stop-loss legs. *)
Definition is_sell (payload : pydict) : bool :=
  match dict_get payload "side" with
  | Some (VStr s) => String.eqb s (Side.value Side.SELL)
  | _ => false
  end.

Definition sell_orders (calls : list call) : list pydict :=
  filter is_sell (orders calls).

(** An order not filled yet: the answer of the order query holds no
    average price.  Either the list of orders is empty, or its first entry
    has no ["avgPrice"], or the field holds the empty string, or it is
    [null].  The second index is the exception that reading the price out
    of such an answer raises. *)
Inductive no_avg_price : pyval -> exn -> Prop :=
| no_orders (r : pyval) :
    subscripts r [Key "result"; Key "list"] = Ok (VList []) ->
    no_avg_price r IndexError
| no_field (r : pyval) (d : pydict) :
    subscripts r [Key "result"; Key "list"; Idx 0] = Ok (VDict d) ->
    dict_get d "avgPrice" = None ->
    no_avg_price r KeyError
| empty_field (r : pyval) :
    subscripts r [Key "result"; Key "list"; Idx 0; Key "avgPrice"]
      = Ok (VStr EmptyString) ->
    no_avg_price r ValueError
| null_field (r : pyval) :
    subscripts r [Key "result"; Key "list"; Idx 0; Key "avgPrice"]
      = Ok VNone ->
    no_avg_price r TypeError.


(** ** A scripted exchange for the examples *)

Module Demo.

(** Canned answers: the two wallet balances, the list of orders the
    order query returns and the list of instruments. *)
Record script : Type := Script {
  usdt_available : pyval;
  base_available : pyval;
  open_orders : list pyval;
  instruments : list pyval
}.

Definition wallet (available : pyval) : pyval :=
  VDict [("retCode", VInt 0);
         ("result",
          VDict [("list",
                  VList [VDict [("coin",
                     VList [VDict [("availableToWithdraw", available)]])]])])].

Definition listing (entries : list pyval) : pyval :=
  VDict [("retCode", VInt 0); ("result", VDict [("list", VList entries)])].

Definition order_with_avg_price (avg : pyval) : pyval :=
  VDict [("orderId", VStr "1"); ("avgPrice", avg)].

Definition instrument (base_precision tick_size : string) : pyval :=
  VDict [("lotSizeFilter", VDict [("basePrecision", VStr base_precision)]);
         ("priceFilter", VDict [("tickSize", VStr tick_size)])].

(** The exchange keeps no state; every order is accepted with id ["1"]. *)
Definition exchange_of (sc : script) (ep : endpoint) (kwargs : pydict)
    (g : unit) : result pyval * unit :=
  match ep with
  | HTTP_get_wallet_balance =>
      match dict_get kwargs "coin" with
      | Some (VStr c) =>
          if String.eqb c "USDT" then (Ok (wallet (usdt_available sc)), g)
          else (Ok (wallet (base_available sc)), g)
      | _ => (Ok (wallet (base_available sc)), g)
      end
  | HTTP_place_order =>
      (Ok (VDict [("retCode", VInt 0);
                  ("result", VDict [("orderId", VStr "1")])]), g)
  | HTTP_get_open_orders => (Ok (listing (open_orders sc)), g)
  | HTTP_get_instruments_info => (Ok (listing (instruments sc)), g)
  end.

Definition start : world unit := World tt [].

(** 1000 USDT available, 0.0023 BTC after the trade, filled at 100, lot
    step 0.0001 and tick 0.01. *)
Definition btc : script :=
  {| usdt_available := VStr "1000";
     base_available := VStr "0.0023";
     open_orders := [order_with_avg_price (VStr "100")];
     instruments := [instrument "0.0001" "0.01"] |}.

End Demo.

(** ** Definitions used by the statements *)

(** The constants [1.0] and [100.0] that the [int] literals [1] and [100]
    become in mixed arithmetic. *)
Definition f1 : Py.float := S754_finite false 4503599627370496 (-52).
Definition f100 : Py.float := S754_finite false 7036874417766400 (-46).

(** [0 <= x], as Python compares floats (false on NaN). *)
Definition nonneg (x : Py.float) : Prop := Py.fle Py.fzero x = true.

(** The same binary64 datum, bit for bit. *)
Definition float_same (x y : Py.float) : bool :=
  match x, y with
  | S754_zero a, S754_zero b => Bool.eqb a b
  | S754_infinity a, S754_infinity b => Bool.eqb a b
  | S754_nan, S754_nan => true
  | S754_finite a m e, S754_finite b m' e' =>
      Bool.eqb a b && Pos.eqb m m' && Z.eqb e e'
  | _, _ => false
  end.

(** The exact rational value of a finite float (zero otherwise). *)
Definition exact (x : Py.float) : Q :=
  match x with
  | S754_finite s m e => (inject_Z (cond_Zopp s (Zpos m)) * Qpower 2 e)%Q
  | _ => 0%Q
  end.

(** The quantity of the specification: [balance * (percentage / 100)]
    rounded to zero decimal places, in binary64 arithmetic. *)
Definition quantity_calculator (B P : Py.float) : Py.float :=
  Py.round (Py.fmul B (SFdiv Py.prec Py.emax P f100)) 0.

(** The target prices of the specification:
    [avg_price * (1 + pct / 100)] and [avg_price * (1 - pct / 100)],
    rounded to [precision] digits. *)
Definition take_profit_target (avg_price pct : Py.float) (precision : nat)
  : Py.float :=
  Py.round
    (Py.fmul avg_price (Py.fadd f1 (SFdiv Py.prec Py.emax pct f100)))
    precision.

Definition stop_loss_target (avg_price pct : Py.float) (precision : nat)
  : Py.float :=
  Py.round
    (Py.fmul avg_price (Py.fsub f1 (SFdiv Py.prec Py.emax pct f100)))
    precision.

(** A percentage that makes the pipeline attempt its leg: supplied and
    not zero. *)
Definition leg_requested (percentage : option Py.float) : bool :=
  match percentage with
  | Some p => float_bool p
  | None => false
  end.

(** The order a take-profit leg submits: a limit sell, good till
    cancelled, at [price]. *)
Definition limit_sell_payload (symbol : string) (qty price : Py.float)
  : pydict :=
  [ ("category", VStr "spot"); ("symbol", VStr symbol);
    ("side", VStr "Sell"); ("orderType", VStr "Limit");
    ("qty", VFloat qty); ("timeInForce", VStr "GTC");
    ("isLeverage", VInt 0); ("orderFilter", VStr "Order");
    ("price", VFloat price) ].

(** The order a stop-loss leg submits: a market sell with the stop-order
    filter; the trigger price is in the payload unless it is zero. *)
Definition stop_sell_payload (symbol : string) (qty trigger : Py.float)
  : pydict :=
  [ ("category", VStr "spot"); ("symbol", VStr symbol);
    ("side", VStr "Sell"); ("orderType", VStr "Market");
    ("qty", VFloat qty); ("timeInForce", VStr "IOC");
    ("isLeverage", VInt 0); ("orderFilter", VStr "StopOrder") ]
  ++ (if float_bool trigger then [("triggerPrice", VFloat trigger)] else []).

(** The instrument query the manager sends for [symbol]. *)
Definition instruments_call (symbol : string) : call :=
  (HTTP_get_instruments_info,
   set_if (truthy (VStr symbol)) "symbol" (VStr symbol)
     [("category", VStr "spot")]).

(** The balance query the manager sends for [coin]. *)
Definition wallet_call (coin : string) : call :=
  (HTTP_get_wallet_balance,
   set_if (truthy (VStr coin)) "coin" (VStr coin)
     [("accountType", VStr "UNIFIED")]).

(** The order query the manager sends for [order_id]. *)
Definition order_query_call (order_id : pyval) : call :=
  (HTTP_get_open_orders,
   [("category", VStr "spot"); ("orderId", order_id)]).

Module Scenario.

(** Like [Demo.btc], with a tick size of fourteen decimal places. *)
Definition fine_tick : Demo.script :=
  {| Demo.usdt_available := VStr "1000";
     Demo.base_available := VStr "0.0023";
     Demo.open_orders := [Demo.order_with_avg_price (VStr "100")];
     Demo.instruments := [Demo.instrument "0.0001" "0.00000000000001"] |}.

(** The order query finds no order. *)
Definition unfilled : Demo.script :=
  {| Demo.usdt_available := VStr "1000";
     Demo.base_available := VStr "0.0023";
     Demo.open_orders := [];
     Demo.instruments := [Demo.instrument "0.0001" "0.01"] |}.

(** The instrument lookup finds no symbol. *)
Definition unlisted : Demo.script :=
  {| Demo.usdt_available := VStr "1000";
     Demo.base_available := VStr "0.0023";
     Demo.open_orders := [Demo.order_with_avg_price (VStr "100")];
     Demo.instruments := [] |}.

(** 0.6 USDT available. *)
Definition small_balance : Demo.script :=
  {| Demo.usdt_available := VStr "0.6";
     Demo.base_available := VStr "0.0023";
     Demo.open_orders := [Demo.order_with_avg_price (VStr "100")];
     Demo.instruments := [Demo.instrument "0.0001" "0.01"] |}.

End Scenario.

(** ** [api_client.py]: the methods the manager does not call *)

(** [ApiClient.get_tickers]: the keyword arguments given to the session.
    The method returns the answer of the session and re-raises what the
    session raises. *)
Definition get_tickers_params (category : Category.t)
    (symbol base_coin exp_date : pyval) : pydict :=
  let params := [("category", VStr (Category.value category))] in
  let params := set_if (truthy symbol) "symbol" symbol params in
  let params := set_if (truthy base_coin) "baseCoin" base_coin params in
  set_if (truthy exp_date) "expDate" exp_date params.

(** [ApiClient.get_instruments_info] with all its parameters: the keyword
    arguments given to the session. *)
Definition get_instruments_info_params (category : Category.t)
    (symbol status base_coin limit cursor : pyval) : pydict :=
  let params := [("category", VStr (Category.value category))] in
  let params := set_if (truthy limit) "limit" limit params in
  let params := set_if (truthy symbol) "symbol" symbol params in
  let params := set_if (truthy status) "status" status params in
  let params := set_if (truthy base_coin) "baseCoin" base_coin params in
  set_if (truthy cursor) "cursor" cursor params.

(** Further keyword arguments of [ApiClient.place_order]: the take-profit
    and stop-loss prices attached to the order. *)
Definition with_take_profit (v : pyval) (a : order_args) : order_args :=
  {| category := category a; symbol := symbol a; side := side a;
     order_type := order_type a; qty := qty a; price := price a;
     time_in_force := time_in_force a; order_link_id := order_link_id a;
     is_leverage := is_leverage a; order_filter := order_filter a;
     market_unit := market_unit a; trigger_price := trigger_price a;
     trigger_direction := trigger_direction a; trigger_by := trigger_by a;
     take_profit := v; stop_loss := stop_loss a;
     tp_trigger_by := tp_trigger_by a; sl_trigger_by := sl_trigger_by a;
     reduce_only := reduce_only a; close_on_trigger := close_on_trigger a;
     tp_sl_mode := tp_sl_mode a; tp_limit_price := tp_limit_price a;
     sl_limit_price := sl_limit_price a; tp_order_type := tp_order_type a;
     sl_order_type := sl_order_type a |}.

Definition with_stop_loss (v : pyval) (a : order_args) : order_args :=
  {| category := category a; symbol := symbol a; side := side a;
     order_type := order_type a; qty := qty a; price := price a;
     time_in_force := time_in_force a; order_link_id := order_link_id a;
     is_leverage := is_leverage a; order_filter := order_filter a;
     market_unit := market_unit a; trigger_price := trigger_price a;
     trigger_direction := trigger_direction a; trigger_by := trigger_by a;
     take_profit := take_profit a; stop_loss := v;
     tp_trigger_by := tp_trigger_by a; sl_trigger_by := sl_trigger_by a;
     reduce_only := reduce_only a; close_on_trigger := close_on_trigger a;
     tp_sl_mode := tp_sl_mode a; tp_limit_price := tp_limit_price a;
     sl_limit_price := sl_limit_price a; tp_order_type := tp_order_type a;
     sl_order_type := sl_order_type a |}.

(** [ApiClient.set_trading_stop] *)
Module SetTradingStop.

Record args : Type := Args {
  category : Category.t;
  symbol : string;
  take_profit : pyval;
  stop_loss : pyval;
  trailing_stop : pyval;
  tp_trigger_by : option TriggerBy.t;
  sl_trigger_by : option TriggerBy.t;
  active_price : pyval;
  tpsl_mode : TP_SL_Mode.t;
  tp_size : pyval;
  sl_size : pyval;
  tp_limit_price : pyval;
  sl_limit_price : pyval;
  tp_order_type : option TP_SL_OrderType.t;
  sl_order_type : option TP_SL_OrderType.t;
  position_idx : Z
}.

(** A call that passes the two required arguments only. *)
Definition defaults (c : Category.t) (sym : string) : args :=
  {| category := c; symbol := sym;
     take_profit := VNone; stop_loss := VNone; trailing_stop := VNone;
     tp_trigger_by := None; sl_trigger_by := None; active_price := VNone;
     tpsl_mode := TP_SL_Mode.FULL;
     tp_size := VNone; sl_size := VNone;
     tp_limit_price := VNone; sl_limit_price := VNone;
     tp_order_type := Some TP_SL_OrderType.MARKET;
     sl_order_type := Some TP_SL_OrderType.MARKET;
     position_idx := 0 |}.

(** A call that passes the two prices as well. *)
Definition with_prices (tp sl : pyval) (a : args) : args :=
  {| category := category a; symbol := symbol a;
     take_profit := tp; stop_loss := sl; trailing_stop := trailing_stop a;
     tp_trigger_by := tp_trigger_by a; sl_trigger_by := sl_trigger_by a;
     active_price := active_price a; tpsl_mode := tpsl_mode a;
     tp_size := tp_size a; sl_size := sl_size a;
     tp_limit_price := tp_limit_price a; sl_limit_price := sl_limit_price a;
     tp_order_type := tp_order_type a; sl_order_type := sl_order_type a;
     position_idx := position_idx a |}.

(** The payload the method builds, in the order of the code. *)
Definition order_data (a : args) : pydict :=
  let d :=
    [ ("category", VStr (Category.value (category a)));
      ("symbol", VStr (symbol a));
      ("tpslMode", VStr (TP_SL_Mode.value (tpsl_mode a)));
      ("positionIdx", VInt (position_idx a)) ] in
  let d := set_if (is_not_None (take_profit a)) "takeProfit" (take_profit a) d in
  let d := set_if (is_not_None (stop_loss a)) "stopLoss" (stop_loss a) d in
  let d := set_if (is_not_None (trailing_stop a)) "trailingStop"
             (trailing_stop a) d in
  let d := set_some (tp_trigger_by a) "tpTriggerBy"
             (fun x => VStr (TriggerBy.value x)) d in
  let d := set_some (sl_trigger_by a) "slTriggerBy"
             (fun x => VStr (TriggerBy.value x)) d in
  let d := set_if (truthy (active_price a)) "activePrice" (active_price a) d in
  let d := set_if (truthy (tp_size a)) "tpSize" (tp_size a) d in
  let d := set_if (truthy (sl_size a)) "slSize" (sl_size a) d in
  let d := set_if (truthy (tp_limit_price a)) "tpLimitPrice"
             (tp_limit_price a) d in
  let d := set_if (truthy (sl_limit_price a)) "slLimitPrice"
             (sl_limit_price a) d in
  let d := set_some (tp_order_type a) "tpOrderType"
             (fun x => VStr (TP_SL_OrderType.value x)) d in
  set_some (sl_order_type a) "slOrderType"
    (fun x => VStr (TP_SL_OrderType.value x)) d.

End SetTradingStop.

(** ** The calls of a run *)

(** The order [_execute_market_order] submits: a market order whose
    quantity is counted in the quote coin. *)
Definition market_order_payload (symbol : string) (side : Side.t)
    (qty : Py.float) : pydict :=
  [ ("category", VStr "spot"); ("symbol", VStr symbol);
    ("side", VStr (Side.value side)); ("orderType", VStr "Market");
    ("qty", VFloat qty); ("timeInForce", VStr "IOC");
    ("isLeverage", VInt 0); ("orderFilter", VStr "Order");
    ("marketUnit", VStr "quoteCoin") ].

(** The calls of the stop-loss step: none when the percentage is absent
    or zero, else the instrument query and the stop order. *)
Definition stop_loss_calls (symbol : string) (avg_price qty : Py.float)
    (sl_percentage : option Py.float) (precision : nat) : list call :=
  if leg_requested sl_percentage then
    match sl_percentage with
    | Some pct =>
        [ instruments_call symbol;
          (HTTP_place_order,
           stop_sell_payload symbol qty
             (stop_loss_target avg_price pct precision)) ]
    | None => []
    end
  else [].

(** The calls of the take-profit step. *)
Definition take_profit_calls (symbol : string) (avg_price qty : Py.float)
    (tp_percentage : option Py.float) (precision : nat) : list call :=
  if leg_requested tp_percentage then
    match tp_percentage with
    | Some pct =>
        [ instruments_call symbol;
          (HTTP_place_order,
           limit_sell_payload symbol qty
             (take_profit_target avg_price pct precision)) ]
    | None => []
    end
  else [].

(** The keys [ApiClient.place_order] always sets, and those it sets on
    demand, in the order of the code. *)
Definition required_keys : list string :=
  [ "category"; "symbol"; "side"; "orderType"; "qty"; "timeInForce";
    "isLeverage"; "orderFilter" ].

Definition optional_keys : list string :=
  [ "price"; "orderLinkId"; "marketUnit"; "triggerPrice"; "triggerDirection";
    "triggerBy"; "takeProfit"; "stopLoss"; "tpTriggerBy"; "slTriggerBy";
    "reduceOnly"; "closeOnTrigger"; "tpslMode"; "tpLimitPrice";
    "slLimitPrice"; "tpOrderType"; "slOrderType" ].

Definition keys (d : pydict) : list string := map fst d.

(** A wallet answer from which no balance can be read, with the exception
    that reading it raises: no account in the list, no coin in the first
    account, or an amount that is the empty string. *)
Inductive no_balance : pyval -> exn -> Prop :=
| no_account (r : pyval) :
    subscripts r [Key "result"; Key "list"] = Ok (VList []) ->
    no_balance r IndexError
| no_coin (r : pyval) :
    subscripts r [Key "result"; Key "list"; Idx 0; Key "coin"]
      = Ok (VList []) ->
    no_balance r IndexError
| empty_amount (r : pyval) :
    subscripts r [Key "result"; Key "list"; Idx 0; Key "coin"; Idx 0;
                  Key "availableToWithdraw"] = Ok (VStr EmptyString) ->
    no_balance r ValueError.

(** ** An exchange that replays a list of answers *)

Module Replay.

(** The state is the list of the answers still to give, in the order of
    the calls and whatever the method called; once the list is used up
    every call fails. *)
Definition exchange (ep : endpoint) (kwargs : pydict)
    (answers : list (result pyval)) : result pyval * list (result pyval) :=
  match answers with
  | r :: rest => (r, rest)
  | [] => (Raise (GatewayError "ConnectionError"), [])
  end.

Definition start (answers : list (result pyval))
  : world (list (result pyval)) := World answers [].

(** An order that the exchange accepts, with id ["1"]. *)
Definition accepted : result pyval :=
  Ok (VDict [("retCode", VInt 0); ("result", VDict [("orderId", VStr "1")])]).

(** An answer that carries no order id. *)
Definition rejected : result pyval :=
  Ok (VDict [("retCode", VInt 0); ("result", VDict [])]).

Definition wallet (available : string) : result pyval :=
  Ok (Demo.wallet (VStr available)).

Definition filled (avg : string) : result pyval :=
  Ok (Demo.listing [Demo.order_with_avg_price (VStr avg)]).

Definition instrument (base_precision tick_size : string) : result pyval :=
  Ok (Demo.listing [Demo.instrument base_precision tick_size]).

Definition unlisted : result pyval := Ok (Demo.listing []).

End Replay.

(** The quantity as [round(B * P / 100, 0)] groups it: the product first,
    then the division by 100, each step in binary64. *)
Definition claimed_quantity (B P : Py.float) : Py.float :=
  Py.round (SFdiv Py.prec Py.emax (Py.fmul B P) f100) 0.

(** * Facts about the embedding *)

(** ** Rounding keeps the sign and does not overflow *)

Section FloatFacts.

Lemma digits2_pos_bounds (m : positive) :
  2 ^ (Zpos (digits2_pos m) - 1) <= Zpos m < 2 ^ Zpos (digits2_pos m).
Proof.
  induction m as [m IH | m IH | ]; simpl digits2_pos.
  - rewrite Pos2Z.inj_succ.
    replace (Z.succ (Zpos (digits2_pos m)) - 1) with (Zpos (digits2_pos m)) by lia.
    rewrite Z.pow_succ_r by lia.
    assert (H : 2 ^ Zpos (digits2_pos m) = 2 * 2 ^ (Zpos (digits2_pos m) - 1)).
    { rewrite <- Z.pow_succ_r by lia. f_equal. lia. }
    lia.
  - rewrite Pos2Z.inj_succ.
    replace (Z.succ (Zpos (digits2_pos m)) - 1) with (Zpos (digits2_pos m)) by lia.
    rewrite Z.pow_succ_r by lia.
    assert (H : 2 ^ Zpos (digits2_pos m) = 2 * 2 ^ (Zpos (digits2_pos m) - 1)).
    { rewrite <- Z.pow_succ_r by lia. f_equal. lia. }
    lia.
  - simpl. lia.
Qed.

Lemma Zdigits2_le (m k : Z) : 0 <= k -> 0 <= m < 2 ^ k -> Zdigits2 m <= k.
Proof.
  intros Hk [Hm Hlt]. destruct m as [ | p | p ]; simpl; try lia.
  destruct (Z_lt_le_dec k (Zpos (digits2_pos p))) as [Hgt | ]; [ | assumption ].
  pose proof (digits2_pos_bounds p) as [Hlo _].
  assert (2 ^ k <= 2 ^ (Zpos (digits2_pos p) - 1)) by (apply Z.pow_le_mono_r; lia).
  lia.
Qed.

Lemma Zdigits2_nonneg (m : Z) : 0 <= Zdigits2 m.
Proof. destruct m; simpl; lia. Qed.

Lemma shr_1_bounds (mrs : shr_record) :
  0 <= shr_m mrs -> 0 <= shr_m (shr_1 mrs) <= shr_m mrs.
Proof.
  destruct mrs as [m r s]. simpl.
  destruct m as [ | [p | p | ] | p ]; simpl; lia.
Qed.

Lemma iter_shr_1_bounds (p : positive) : forall mrs,
  0 <= shr_m mrs -> 0 <= shr_m (iter_pos shr_1 p mrs) <= shr_m mrs.
Proof.
  induction p as [p IH | p IH | ]; intros mrs H; simpl.
  - pose proof (shr_1_bounds mrs H) as H1.
    pose proof (IH (shr_1 mrs) (proj1 H1)) as H2.
    pose proof (IH _ (proj1 H2)) as H3. lia.
  - pose proof (IH mrs H) as H2.
    pose proof (IH _ (proj1 H2)) as H3. lia.
  - apply shr_1_bounds; assumption.
Qed.

Lemma shr_bounds (mrs : shr_record) (e n : Z) :
  0 <= shr_m mrs -> 0 <= shr_m (fst (shr mrs e n)) <= shr_m mrs.
Proof.
  intros H. destruct n; simpl; try lia. apply iter_shr_1_bounds; assumption.
Qed.

Lemma shr_exponent (mrs : shr_record) (e n : Z) :
  snd (shr mrs e n) = Z.max e (e + n).
Proof. destruct n; simpl; lia. Qed.

Lemma shr_record_of_loc_m (m : Z) (l : location) :
  shr_m (shr_record_of_loc m l) = m.
Proof. destruct l as [ | [ | | ] ]; reflexivity. Qed.

Lemma round_nearest_even_bounds (m : Z) (l : location) :
  m <= round_nearest_even m l <= m + 1.
Proof.
  destruct l as [ | [ | | ] ]; simpl; try lia. destruct (Z.even m); lia.
Qed.

(** The outcome of rounding a non-negative mantissa: the sign is kept. *)
Lemma binary_round_aux_sign (s : bool) (mz ez : Z) (lz : location) :
  0 <= mz ->
  match binary_round_aux Py.prec Py.emax s mz ez lz with
  | S754_zero s' | S754_infinity s' | S754_finite s' _ _ => s' = s
  | S754_nan => False
  end.
Proof.
  intros Hm. unfold binary_round_aux.
  destruct (shr_fexp Py.prec Py.emax mz ez lz) as [mrs' e'] eqn:E1.
  destruct (shr_fexp Py.prec Py.emax
              (round_nearest_even (shr_m mrs') (loc_of_shr_record mrs')) e' loc_Exact)
    as [mrs'' e''] eqn:E2.
  assert (H1 : 0 <= shr_m mrs').
  { unfold shr_fexp in E1.
    pose proof (shr_bounds (shr_record_of_loc mz lz) ez
      (fexp Py.prec Py.emax (Zdigits2 mz + ez) - ez)) as B.
    rewrite E1, shr_record_of_loc_m in B. simpl in B. lia. }
  assert (H2 : 0 <= shr_m mrs'').
  { unfold shr_fexp in E2.
    set (m1 := round_nearest_even (shr_m mrs') (loc_of_shr_record mrs')) in *.
    pose proof (round_nearest_even_bounds (shr_m mrs') (loc_of_shr_record mrs')) as R.
    fold m1 in R.
    pose proof (shr_bounds (shr_record_of_loc m1 loc_Exact) e'
      (fexp Py.prec Py.emax (Zdigits2 m1 + e') - e')) as B.
    rewrite E2 in B. simpl in B. lia. }
  destruct (shr_m mrs'') as [ | p | p ]; try lia; try reflexivity.
  destruct (e'' <=? Py.emax - Py.prec); reflexivity.
Qed.

(** No overflow when the mantissa and the exponent are far from the top. *)
Lemma binary_round_aux_no_overflow (s : bool) (mz ez k : Z) (lz : location) :
  0 <= k <= 400 -> 0 <= mz < 2 ^ k -> ez <= 100 ->
  forall s', binary_round_aux Py.prec Py.emax s mz ez lz <> S754_infinity s'.
Proof.
  intros Hk Hm He s'. unfold binary_round_aux.
  destruct (shr_fexp Py.prec Py.emax mz ez lz) as [mrs' e'] eqn:E1.
  destruct (shr_fexp Py.prec Py.emax
              (round_nearest_even (shr_m mrs') (loc_of_shr_record mrs')) e' loc_Exact)
    as [mrs'' e''] eqn:E2.
  set (m1 := round_nearest_even (shr_m mrs') (loc_of_shr_record mrs')) in *.
  unfold shr_fexp in E1, E2.
  pose proof (shr_bounds (shr_record_of_loc mz lz) ez
      (fexp Py.prec Py.emax (Zdigits2 mz + ez) - ez)) as B1.
  pose proof (shr_exponent (shr_record_of_loc mz lz) ez
      (fexp Py.prec Py.emax (Zdigits2 mz + ez) - ez)) as X1.
  rewrite E1 in B1, X1. rewrite shr_record_of_loc_m in B1. simpl in B1, X1.
  pose proof (round_nearest_even_bounds (shr_m mrs') (loc_of_shr_record mrs')) as R.
  fold m1 in R.
  pose proof (shr_exponent (shr_record_of_loc m1 loc_Exact) e'
      (fexp Py.prec Py.emax (Zdigits2 m1 + e') - e')) as X2.
  rewrite E2 in X2. simpl in X2.
  assert (D0 : Zdigits2 mz <= k) by (apply Zdigits2_le; lia).
  assert (D1 : Zdigits2 m1 <= k + 1).
  { apply Zdigits2_le; [ lia | ].
    replace (k + 1) with (Z.succ k) by lia.
    rewrite Z.pow_succ_r by lia. lia. }
  pose proof (Zdigits2_nonneg mz). pose proof (Zdigits2_nonneg m1).
  unfold fexp, emin, Py.prec, Py.emax in *.
  assert (He'' : e'' <= 971) by lia.
  destruct (shr_m mrs''); try discriminate.
  replace (e'' <=? 1024 - 53) with true by (symmetry; apply Z.leb_le; lia).
  discriminate.
Qed.

Lemma float_of_int_100 : Py.float_of_int 100 = Ok f100.
Proof. vm_compute. reflexivity. Qed.

Lemma float_div_int_100 (x : Py.float) :
  float_div_int x 100 = Ok (SFdiv Py.prec Py.emax x f100).
Proof. unfold float_div_int. rewrite float_of_int_100. reflexivity. Qed.

Lemma nonneg_cases (x : Py.float) :
  nonneg x <->
  match x with
  | S754_zero _ => True
  | S754_finite s _ _ | S754_infinity s => s = false
  | S754_nan => False
  end.
Proof.
  unfold nonneg, Py.fle, SFleb, Py.fzero.
  destruct x as [ s | [ | ] | | [ | ] m e ]; simpl; intuition congruence.
Qed.

Lemma div_eucl_bounds (a b : Z) :
  0 <= a -> 0 < b -> 0 <= fst (Z.div_eucl a b) <= a.
Proof.
  intros Ha Hb. pose proof (Z_div_mod a b ltac:(lia)) as H.
  destruct (Z.div_eucl a b) as [q r]. simpl. nia.
Qed.

(** A percentage in [0, 100] gives a share [P / 100] that is a finite,
    non-negative number. *)
Lemma share_nonneg_finite (P : Py.float) :
  valid_binary Py.prec Py.emax P = true ->
  nonneg P -> Py.fle P f100 = true ->
  Py.is_finite (SFdiv Py.prec Py.emax P f100) = true /\
  nonneg (SFdiv Py.prec Py.emax P f100).
Proof.
  intros Hv H0 H100. apply nonneg_cases in H0.
  destruct P as [ s | s | | s m e ]; try contradiction.
  - split; [ reflexivity | apply nonneg_cases; exact I ].
  - subst s. discriminate H100.
  - subst s. unfold f100. simpl SFdiv.
    destruct (SFdiv_core_binary Py.prec Py.emax (Zpos m) e
                (Zpos 7036874417766400) (-46)) as [[mz ez] lz] eqn:E.
    assert (He : e <= -46).
    { unfold Py.fle, SFleb, SFcompare, f100 in H100. cbv beta iota in H100.
      destruct (e ?= -46) eqn:C; try discriminate.
      - apply Z.compare_eq in C. lia.
      - rewrite Z.compare_lt_iff in C. lia. }
    assert (Hd : Zpos (digits2_pos m) <= 53).
    { simpl in Hv. apply andb_prop in Hv. destruct Hv as [Hc _].
      unfold canonical_mantissa in Hc. apply Z.eqb_eq in Hc.
      unfold fexp, emin, Py.prec, Py.emax in Hc. lia. }
    assert (Hm : Zpos m < 2 ^ 53).
    { pose proof (digits2_pos_bounds m) as [_ Hlt].
      assert (2 ^ Zpos (digits2_pos m) <= 2 ^ 53) by (apply Z.pow_le_mono_r; lia).
      lia. }
    unfold SFdiv_core_binary in E.
    change (Zdigits2 (Zpos 7036874417766400)) with 53 in E.
    change (Zdigits2 (Zpos m)) with (Zpos (digits2_pos m)) in E.
    set (e' := Z.min (fexp Py.prec Py.emax
                       (Zpos (digits2_pos m) + e - (53 + -46))) (e - -46)) in E.
    set (m' := match e - -46 - e' with
               | Z0 => Zpos m
               | Zpos _ => Z.shiftl (Zpos m) (e - -46 - e')
               | Zneg _ => 0
               end) in E.
    assert (Hs : 0 <= e - -46 - e' <= 106).
    { unfold e', fexp, emin, Py.prec, Py.emax. lia. }
    assert (Hm' : 0 <= m' < 2 ^ 159).
    { assert (Hsh : 0 <= Z.shiftl (Zpos m) (e - -46 - e') < 2 ^ 159).
      { rewrite Z.shiftl_mul_pow2 by lia.
        assert (0 < 2 ^ (e - -46 - e') <= 2 ^ 106).
        { split; [ apply Z.pow_pos_nonneg; lia | apply Z.pow_le_mono_r; lia ]. }
        change (2 ^ 159) with (2 ^ 53 * 2 ^ 106). nia. }
      unfold m'. destruct (e - -46 - e'); [ | exact Hsh | lia ].
      change (2 ^ 159) with (2 ^ 53 * 2 ^ 106). lia. }
    pose proof (div_eucl_bounds m' (Zpos 7036874417766400) ltac:(lia) ltac:(lia)) as Hq.
    destruct (Z.div_eucl m' (Zpos 7036874417766400)) as [q r].
    injection E as Emz Eez Elz. simpl in Hq.
    assert (Hez : ez <= 100).
    { subst ez. unfold e', fexp, emin, Py.prec, Py.emax. lia. }
    assert (Hmz : 0 <= mz < 2 ^ 159) by lia.
    pose proof (binary_round_aux_sign false mz ez lz ltac:(lia)) as Hsign.
    pose proof (binary_round_aux_no_overflow false mz ez 159 lz ltac:(lia) Hmz Hez) as Hfin.
    destruct (binary_round_aux Py.prec Py.emax false mz ez lz) as [ s' | s' | | s' m0 e0 ].
    + split; [ reflexivity | apply nonneg_cases; exact I ].
    + exfalso. apply (Hfin s'). reflexivity.
    + contradiction.
    + split; [ reflexivity | apply nonneg_cases; exact Hsign ].
Qed.

Lemma fmul_nonneg (x y : Py.float) :
  Py.is_finite x = true -> Py.is_finite y = true ->
  nonneg x -> nonneg y -> nonneg (Py.fmul x y).
Proof.
  intros Fx Fy Hx Hy. apply nonneg_cases in Hx, Hy. apply nonneg_cases.
  unfold Py.fmul, SFmul.
  destruct x as [ sx | sx | | sx mx ex ], y as [ sy | sy | | sy my ey ];
    try discriminate; try contradiction; try exact I.
  subst sx sy. change (xorb false false) with false.
  pose proof (binary_round_aux_sign false (Zpos (mx * my)) (ex + ey) loc_Exact
                ltac:(lia)) as H.
  destruct (binary_round_aux Py.prec Py.emax false (Zpos (mx * my)) (ex + ey)
              loc_Exact); first [ exact I | assumption ].
Qed.

Lemma nearest_ratio_sign (s : bool) (num den : positive) :
  match Py.nearest_ratio s num den with
  | S754_zero s' | S754_infinity s' | S754_finite s' _ _ => s' = s
  | S754_nan => False
  end.
Proof.
  unfold Py.nearest_ratio, SFdiv_core_binary.
  set (m' := match _ with Z0 => Zpos num | Zpos _ => _ | Zneg _ => 0 end).
  assert (Hm' : 0 <= m').
  { unfold m'. destruct (_ - _ - _); try lia. apply Z.shiftl_nonneg. lia. }
  pose proof (div_eucl_bounds m' (Zpos den) Hm' ltac:(lia)) as Hq.
  destruct (Z.div_eucl m' (Zpos den)) as [q r]. simpl in Hq.
  apply binary_round_aux_sign. lia.
Qed.

Lemma round_nonneg (x : Py.float) (n : nat) : nonneg x -> nonneg (Py.round x n).
Proof.
  intros H. apply nonneg_cases in H. apply nonneg_cases.
  destruct x as [ s | s | | s m e ]; simpl; try assumption.
  subst s.
  destruct (323 <? Z.of_nat n); [ reflexivity | ].
  destruct (0 <=? e); [ reflexivity | ].
  destruct (Py.div_half_even _ _) as [ | p | p ]; try exact I.
  pose proof (nearest_ratio_sign false p (Z.to_pos (10 ^ Z.of_nat n))) as H.
  destruct (Py.nearest_ratio false p (Z.to_pos (10 ^ Z.of_nat n)));
    first [ exact I | assumption ].
Qed.

End FloatFacts.

(** ** The call monad *)

Section MonadFacts.
Context {G : Type}.

Lemma bind_ok {A B : Type} (m : M G A) (k : A -> M G B) (w w' : world G) (a : A) :
  m w = (Ok a, w') -> bind m k w = k a w'.
Proof. intros H. unfold bind. rewrite H. reflexivity. Qed.

Lemma bind_raise {A B : Type} (m : M G A) (k : A -> M G B) (w w' : world G)
    (e : exn) :
  m w = (Raise e, w') -> bind m k w = (Raise e, w').
Proof. intros H. unfold bind. rewrite H. reflexivity. Qed.

Lemma bind_inv_ok {A B : Type} (m : M G A) (k : A -> M G B) (w w'' : world G)
    (b : B) :
  bind m k w = (Ok b, w'') ->
  exists a w', m w = (Ok a, w') /\ k a w' = (Ok b, w'').
Proof.
  unfold bind. destruct (m w) as [[e | a] w'] eqn:E; intros H.
  - discriminate H.
  - exists a, w'. split; [ reflexivity | exact H ].
Qed.

End MonadFacts.

Lemma orders_app (l l' : list call) : orders (l ++ l') = orders l ++ orders l'.
Proof. unfold orders. rewrite filter_app, map_app. reflexivity. Qed.

Section QuantityFacts.
Variable G : Type.
Variable session : endpoint -> pydict -> G -> result pyval * G.

Lemma session_call_submitted (ep : endpoint) (kwargs : pydict) (w w' : world G)
    (r : result pyval) :
  session_call session ep kwargs w = (r, w') ->
  submitted w' = submitted w ++ [(ep, kwargs)].
Proof.
  unfold session_call. destruct (session ep kwargs (exchange w)) as [r0 g].
  intros H. injection H as _ <-. reflexivity.
Qed.

(** Claim C1.  For a finite balance [B >= 0] read from the wallet and a
    percentage [P] with [0 <= P <= 100], [_calculate_order_qty] returns
    [round(B * (P / 100), 0)], computed in binary64 in that order: the
    percentage is divided by 100, the balance is multiplied by the
    quotient and the product is rounded to the nearest integer, ties to
    even.  That quantity is never negative.  At 1000 and 10 percent it is
    100, at 90 and 35 percent it is 31, at 150 and 7 percent it is 11 and
    at 0.6 and 100 percent it is 1. *)
Theorem calculate_order_qty_spec (symbol : string) (B P : Py.float)
    (w w' : world G) :
  get_balance session "USDT" w = (Ok B, w') ->
  Py.is_finite B = true -> Py.fle Py.fzero B = true ->
  valid_binary Py.prec Py.emax P = true ->
  Py.fle Py.fzero P = true -> Py.fle P (Py.lit "100") = true ->
  _calculate_order_qty session symbol P w = (Ok (quantity_calculator B P), w') /\
  Py.fle Py.fzero (quantity_calculator B P) = true /\
  quantity_calculator (Py.lit "1000") (Py.lit "10") = Py.lit "100" /\
  quantity_calculator (Py.lit "90") (Py.lit "35") = Py.lit "31" /\
  quantity_calculator (Py.lit "150") (Py.lit "7") = Py.lit "11" /\
  quantity_calculator (Py.lit "0.6") (Py.lit "100") = Py.lit "1".
Proof.
  intros Hbal HB HB0 HvP HP0 HP100. split; [ | split ].
  - unfold _calculate_order_qty. rewrite (bind_ok _ _ _ _ _ Hbal).
    unfold lift. rewrite float_div_int_100. reflexivity.
  - change (Py.lit "100") with f100 in HP100.
    destruct (share_nonneg_finite P HvP HP0 HP100) as [Hfin Hnn].
    apply round_nonneg, fmul_nonneg; assumption.
  - repeat split; vm_compute; reflexivity.
Qed.

End QuantityFacts.

(** C1 on the scripted exchange: 1000 USDT and 10 percent give 100. *)
Lemma calculate_order_qty_spec_witness :
  Py.fle Py.fzero (Py.lit "10") = true /\
  _calculate_order_qty (Demo.exchange_of Demo.btc) "BTCUSDT" (Py.lit "10")
    Demo.start
  = (Ok (Py.lit "100"),
     World tt [(HTTP_get_wallet_balance,
                [("accountType", VStr "UNIFIED"); ("coin", VStr "USDT")])]).
Proof.
  split; [ reflexivity | ].
  refine (proj1 (calculate_order_qty_spec unit (Demo.exchange_of Demo.btc)
            "BTCUSDT" (Py.lit "1000") (Py.lit "10") Demo.start _ _ _ _ _ _ _));
    vm_compute; reflexivity.
Defined.

(** Claim C1 as worded, at 90 USDT and 35 percent: the code divides the
    percentage by 100 before it multiplies, gets 31.499999999999996 and
    returns 31, where [round(B * P / 100, 0)] is 32, both in binary64 and
    on the exact amount 31.5. *)
Lemma quantity_differs_from_claimed_formula :
  nonneg (Py.lit "90") /\
  nonneg (Py.lit "35") /\ Py.fle (Py.lit "35") f100 = true /\
  fst (get_balance Replay.exchange "USDT"
         (Replay.start [Replay.wallet "90"])) = Ok (Py.lit "90") /\
  fst (_calculate_order_qty Replay.exchange "BTCUSDT" (Py.lit "35")
         (Replay.start [Replay.wallet "90"])) = Ok (Py.lit "31") /\
  claimed_quantity (Py.lit "90") (Py.lit "35") = Py.lit "32" /\
  (exact (Py.lit "90") * exact (Py.lit "35") / 100 == 63 # 2)%Q /\
  Py.div_half_even 63 2 = 32 /\
  Py.feq (Py.lit "31") (Py.lit "32") = false.
Proof. repeat split; vm_compute; reflexivity. Qed.

(** ** Strings *)

Lemma str_split_no_sep (c : ascii) (s : string) :
  contains_char c s = false -> str_split c s = [s].
Proof.
  induction s as [ | c' s IH ]; simpl; intros H; [ reflexivity | ].
  apply orb_false_elim in H. destruct H as [Hc Hs].
  rewrite Hc, (IH Hs). reflexivity.
Qed.

Lemma str_split_at_sep (c : ascii) (a b : string) :
  contains_char c a = false ->
  str_split c (a ++ String c b) = a :: str_split c b.
Proof.
  induction a as [ | c' a IH ]; simpl; intros H.
  - rewrite Ascii.eqb_refl. reflexivity.
  - apply orb_false_elim in H. destruct H as [Hc Ha].
    rewrite Hc, (IH Ha). reflexivity.
Qed.

Lemma contains_char_sep (c : ascii) (a b : string) :
  contains_char c (a ++ String c b) = true.
Proof.
  induction a as [ | c' a IH ]; simpl.
  - rewrite Ascii.eqb_refl. reflexivity.
  - rewrite IH. apply orb_true_r.
Qed.

(** Claim C5.  On a step-size string without a decimal point
    [_count_decimal_places] returns zero; on a string with one point it
    returns the number of characters after the point.  In particular
    0.0001 gives 4, 1 gives 0 and 0.1 gives 1. *)
Theorem count_decimal_places_spec (a b : string) :
  contains_char "." a = false -> contains_char "." b = false ->
  _count_decimal_places (VStr a) = Ok 0%nat /\
  _count_decimal_places (VStr (a ++ "." ++ b)) = Ok (String.length b) /\
  _count_decimal_places (VStr "0.0001") = Ok 4%nat /\
  _count_decimal_places (VStr "1") = Ok 0%nat /\
  _count_decimal_places (VStr "0.1") = Ok 1%nat.
Proof.
  intros Ha Hb. repeat split; try reflexivity.
  - unfold _count_decimal_places. rewrite Ha. reflexivity.
  - unfold _count_decimal_places.
    change (a ++ "." ++ b)%string with (a ++ String "." b)%string.
    rewrite contains_char_sep, (str_split_at_sep _ _ _ Ha),
      (str_split_no_sep _ _ Hb).
    reflexivity.
Qed.

(** C5 on the step size 0.0001. *)
Lemma count_decimal_places_spec_witness :
  contains_char "." "0" = false /\
  _count_decimal_places (VStr "0.0001") = Ok (String.length "0001").
Proof.
  split; [ reflexivity | ].
  exact (proj1 (proj2 (count_decimal_places_spec "0" "0001" eq_refl eq_refl))).
Defined.

(** Claim C2.  [_round_to_precision] gives 1.23 on 1.23456 and on 1.239
    at two digits.  It is not a floor on every value, though: at one digit
    the product of 0.8999999999999999 with 10 is rounded to 9.0 by the
    binary64 multiplication before [math.floor] sees it, and the result,
    0.9, is strictly greater than the value. *)
Theorem round_to_precision_overshoots :
  _round_to_precision (Py.lit "1.23456") 2 = Ok (Py.lit "1.23") /\
  _round_to_precision (Py.lit "1.239") 2 = Ok (Py.lit "1.23") /\
  _round_to_precision (Py.lit "0.8999999999999999") 1 = Ok (Py.lit "0.9") /\
  Py.flt (Py.lit "0.8999999999999999") (Py.lit "0.9") = true.
Proof. repeat split; vm_compute; reflexivity. Qed.

(** Claim C10.  There are a balance [B >= 0] and a percentage [P] in
    [0, 100] for which the submitted quote quantity is strictly greater
    than the exact amount [B * P / 100]: with 0.6 USDT and 100 percent the
    quantity is 1, more than the balance.  Rounding to zero decimals goes
    to the nearest integer, ties to even: 0.5 gives 0, 1.5 and 2.5 give 2. *)
Theorem quote_quantity_can_exceed_balance :
  exists B P q : Py.float,
    Py.is_finite B = true /\ nonneg B /\ nonneg P /\ Py.fle P f100 = true /\
    fst (get_balance (Demo.exchange_of Scenario.small_balance) "USDT"
           Demo.start) = Ok B /\
    fst (_calculate_order_qty (Demo.exchange_of Scenario.small_balance)
           "BTCUSDT" P Demo.start) = Ok q /\
    (exact B * exact P / 100 < exact q)%Q /\
    P = f100 /\ Py.flt B q = true /\
    Py.round (Py.lit "0.5") 0 = Py.lit "0" /\
    Py.round (Py.lit "1.5") 0 = Py.lit "2" /\
    Py.round (Py.lit "2.5") 0 = Py.lit "2".
Proof.
  exists (Py.lit "0.6"), f100, (Py.lit "1").
  repeat split; vm_compute; reflexivity.
Qed.

(** ** Target prices *)

Lemma float_of_int_1 : Py.float_of_int 1 = Ok f1.
Proof. vm_compute. reflexivity. Qed.

Lemma int_add_float_1 (x : Py.float) : int_add_float 1 x = Ok (Py.fadd f1 x).
Proof. unfold int_add_float. rewrite float_of_int_1. reflexivity. Qed.

Lemma int_sub_float_1 (x : Py.float) : int_sub_float 1 x = Ok (Py.fsub f1 x).
Proof. unfold int_sub_float. rewrite float_of_int_1. reflexivity. Qed.

Lemma float_same_eq (x y : Py.float) : float_same x y = true -> x = y.
Proof.
  destruct x as [ a | a | | a m e ], y as [ b | b | | b m' e' ]; simpl;
    try discriminate; intros H.
  - apply eqb_prop in H. congruence.
  - apply eqb_prop in H. congruence.
  - reflexivity.
  - apply andb_prop in H. destruct H as [H He].
    apply andb_prop in H. destruct H as [Hs Hm].
    apply eqb_prop in Hs. apply Pos.eqb_eq in Hm. apply Z.eqb_eq in He.
    congruence.
Qed.

Lemma forallb_below (n : nat) (P : nat -> bool) :
  forallb P (seq 0 n) = true -> forall p, (p < n)%nat -> P p = true.
Proof.
  intros H p Hp. rewrite forallb_forall in H. apply H.
  apply in_seq. lia.
Qed.

Lemma round_beyond (x : Py.float) (p : nat) :
  (323 < p)%nat -> Py.round x p = x.
Proof.
  intros Hp. destruct x as [ s | s | | s m e ]; try reflexivity.
  unfold Py.round.
  replace (323 <? Z.of_nat p) with true; [ reflexivity | ].
  symmetry. apply Z.ltb_lt. lia.
Qed.

Lemma take_profit_100_10_coarse (p : nat) :
  (p <= 13)%nat -> take_profit_target (Py.lit "100") (Py.lit "10") p = Py.lit "110".
Proof.
  intros Hp. apply float_same_eq.
  apply (forallb_below 14
           (fun p => float_same
              (take_profit_target (Py.lit "100") (Py.lit "10") p) (Py.lit "110")));
    [ vm_compute; reflexivity | lia ].
Qed.

Lemma take_profit_100_10_fine (p : nat) :
  (14 <= p)%nat ->
  take_profit_target (Py.lit "100") (Py.lit "10") p = Py.lit "110.00000000000001".
Proof.
  intros Hp. destruct (le_lt_dec p 323) as [Hle | Hgt].
  - apply float_same_eq.
    assert (H : (p <? 14)%nat ||
                float_same (take_profit_target (Py.lit "100") (Py.lit "10") p)
                  (Py.lit "110.00000000000001") = true).
    { apply (forallb_below 324
               (fun p => (p <? 14)%nat ||
                  float_same
                    (take_profit_target (Py.lit "100") (Py.lit "10") p)
                    (Py.lit "110.00000000000001")));
        [ vm_compute; reflexivity | lia ]. }
    apply orb_prop in H. destruct H as [H | H]; [ | exact H ].
    apply Nat.ltb_lt in H. lia.
  - unfold take_profit_target. rewrite round_beyond by exact Hgt.
    vm_compute. reflexivity.
Qed.

Lemma stop_loss_100_10 (p : nat) :
  stop_loss_target (Py.lit "100") (Py.lit "10") p = Py.lit "90".
Proof.
  destruct (le_lt_dec p 323) as [Hle | Hgt].
  - apply float_same_eq.
    apply (forallb_below 324
             (fun p => float_same
                (stop_loss_target (Py.lit "100") (Py.lit "10") p) (Py.lit "90")));
      [ vm_compute; reflexivity | lia ].
  - unfold stop_loss_target. rewrite round_beyond by exact Hgt.
    vm_compute. reflexivity.
Qed.

Section TargetFacts.
Variable G : Type.
Variable session : endpoint -> pydict -> G -> result pyval * G.

Lemma calculate_target_price_eq (symbol : string) (avg pct : Py.float)
    (is_tp : bool) (w : world G) :
  _calculate_target_price session symbol avg pct is_tp w =
  bind (_get_price_precision session Category.SPOT symbol)
    (fun p => ret (if is_tp then take_profit_target avg pct p
                   else stop_loss_target avg pct p)) w.
Proof.
  unfold _calculate_target_price.
  rewrite float_div_int_100. unfold rbind at 1, Ok at 1.
  destruct is_tp.
  - rewrite int_add_float_1. reflexivity.
  - rewrite int_sub_float_1. reflexivity.
Qed.

(** Claim C3.  Once the price precision [p] of the symbol is resolved,
    [_calculate_target_price] returns [avg * (1 + pct / 100)] for a
    take-profit and [avg * (1 - pct / 100)] for a stop-loss, each rounded
    to [p] digits.  With an average price of 100 and 10 percent the
    take-profit target is 110 up to thirteen digits and
    110.00000000000001 from fourteen digits on; the stop-loss target is 90
    at every precision. *)
Theorem calculate_target_price_spec (symbol : string) (avg pct : Py.float)
    (p : nat) (w w' : world G) :
  _get_price_precision session Category.SPOT symbol w = (Ok p, w') ->
  _calculate_target_price session symbol avg pct true w
    = (Ok (take_profit_target avg pct p), w') /\
  _calculate_target_price session symbol avg pct false w
    = (Ok (stop_loss_target avg pct p), w') /\
  ((p <= 13)%nat ->
   take_profit_target (Py.lit "100") (Py.lit "10") p = Py.lit "110") /\
  ((14 <= p)%nat ->
   take_profit_target (Py.lit "100") (Py.lit "10") p
     = Py.lit "110.00000000000001") /\
  stop_loss_target (Py.lit "100") (Py.lit "10") p = Py.lit "90".
Proof.
  intros Hp. repeat split.
  - rewrite calculate_target_price_eq, (bind_ok _ _ _ _ _ Hp). reflexivity.
  - rewrite calculate_target_price_eq, (bind_ok _ _ _ _ _ Hp). reflexivity.
  - apply take_profit_100_10_coarse.
  - apply take_profit_100_10_fine.
  - apply stop_loss_100_10.
Qed.

End TargetFacts.

(** C3 on the scripted exchange, whose tick size has two decimal places. *)
Lemma calculate_target_price_spec_witness :
  fst (_get_price_precision (Demo.exchange_of Demo.btc) Category.SPOT "BTCUSDT"
         Demo.start) = Ok 2%nat /\
  fst (_calculate_target_price (Demo.exchange_of Demo.btc) "BTCUSDT"
         (Py.lit "100") (Py.lit "10") true Demo.start) = Ok (Py.lit "110").
Proof.
  split; [ reflexivity | ].
  rewrite (proj1 (calculate_target_price_spec unit (Demo.exchange_of Demo.btc)
                    "BTCUSDT" (Py.lit "100") (Py.lit "10") 2 Demo.start _
                    eq_refl)).
  vm_compute. reflexivity.
Defined.

(** Claim C3 on a symbol whose tick size has fourteen decimal places: the
    take-profit target for an average price of 100 and 10 percent is
    110.00000000000001, which is not 110. *)
Lemma take_profit_110_fails_at_14_digits :
  fst (_get_price_precision (Demo.exchange_of Scenario.fine_tick)
         Category.SPOT "BTCUSDT" Demo.start) = Ok 14%nat /\
  fst (_calculate_target_price (Demo.exchange_of Scenario.fine_tick) "BTCUSDT"
         (Py.lit "100") (Py.lit "10") true Demo.start)
    = Ok (Py.lit "110.00000000000001") /\
  Py.feq (Py.lit "110.00000000000001") (Py.lit "110") = false.
Proof. repeat split; vm_compute; reflexivity. Qed.

(** ** Reading the answers of the exchange *)

Lemma subscripts_app (v : pyval) (p q : list subscript) :
  subscripts v (p ++ q) = rbind (subscripts v p) (fun x => subscripts x q).
Proof.
  revert v. induction p as [ | s p IH ]; intros v; simpl; [ reflexivity | ].
  destruct (getitem v s) as [ e | x ]; simpl; [ reflexivity | apply IH ].
Qed.

(** Reading the average price out of an answer that holds none. *)
Lemma avg_price_read (r : pyval) (e : exn) :
  no_avg_price r e ->
  (x <~ subscripts r [Key "result"; Key "list"; Idx 0; Key "avgPrice"] ;;
   to_float x) = Raise e.
Proof.
  intros H. destruct H as [ r H | r d H Hd | r H | r H ].
  - change [Key "result"; Key "list"; Idx 0; Key "avgPrice"]
      with ([Key "result"; Key "list"] ++ [Idx 0; Key "avgPrice"]).
    rewrite subscripts_app, H. reflexivity.
  - change [Key "result"; Key "list"; Idx 0; Key "avgPrice"]
      with ([Key "result"; Key "list"; Idx 0] ++ [Key "avgPrice"]).
    rewrite subscripts_app, H. simpl. rewrite Hd. reflexivity.
  - rewrite H. reflexivity.
  - rewrite H. reflexivity.
Qed.


Lemma order_data_limit (symbol : string) (qty price : Py.float) :
  order_data
    (with_time_in_force TimeInForce.GTC
       (with_price (VFloat price)
          (order_defaults Category.SPOT symbol Side.SELL OrderType.LIMIT
             (VFloat qty))))
  = limit_sell_payload symbol qty price.
Proof. reflexivity. Qed.

Lemma order_data_stop (symbol : string) (qty trigger : Py.float) :
  order_data
    (with_order_filter OrderFilter.STOP_ORDER
       (with_trigger_price (VFloat trigger)
          (order_defaults Category.SPOT symbol Side.SELL OrderType.MARKET
             (VFloat qty))))
  = stop_sell_payload symbol qty trigger.
Proof.
  unfold stop_sell_payload, order_data. simpl.
  destruct (float_bool trigger); reflexivity.
Qed.

Section LookupFacts.
Variable G : Type.
Variable session : endpoint -> pydict -> G -> result pyval * G.

(** A method that makes one call and then only computes. *)
Lemma call_then_compute {A : Type} (ep : endpoint) (kwargs : pydict)
    (f : pyval -> result A) (w w' : world G) (r : result A) :
  bind (session_call session ep kwargs) (fun x => lift (f x)) w = (r, w') ->
  submitted w' = submitted w ++ [(ep, kwargs)].
Proof.
  unfold bind, lift.
  destruct (session_call session ep kwargs w) as [[e | x] w1] eqn:E;
    intros H; injection H as _ <-;
    exact (session_call_submitted G session _ _ _ _ _ E).
Qed.

Lemma get_balance_submitted (coin : string) (w w' : world G)
    (r : result Py.float) :
  get_balance session coin w = (r, w') ->
  submitted w' = submitted w ++ [wallet_call coin].
Proof. apply call_then_compute. Qed.

Lemma get_qty_precision_submitted (symbol : string) (w w' : world G)
    (r : result nat) :
  _get_qty_precision session Category.SPOT symbol w = (r, w') ->
  submitted w' = submitted w ++ [instruments_call symbol].
Proof. apply call_then_compute. Qed.

Lemma get_price_precision_submitted (symbol : string) (w w' : world G)
    (r : result nat) :
  _get_price_precision session Category.SPOT symbol w = (r, w') ->
  submitted w' = submitted w ++ [instruments_call symbol].
Proof. apply call_then_compute. Qed.

Lemma orders_query (l : list call) (ep : endpoint) (kwargs : pydict) :
  ep <> HTTP_place_order ->
  orders (l ++ [(ep, kwargs)]) = orders l.
Proof.
  intros H. rewrite orders_app. unfold orders at 2. simpl.
  destruct ep; try contradiction; simpl; apply app_nil_r.
Qed.

Lemma orders_placed (l : list call) (payload : pydict) :
  orders (l ++ [(HTTP_place_order, payload)]) = orders l ++ [payload].
Proof. rewrite orders_app. reflexivity. Qed.

(** Claim C4.  When the answer to the order query holds no average price,
    [_get_avg_price] raises the exception of the failed subscript or
    conversion ([IndexError], [KeyError], [ValueError] or [TypeError]), the
    pipeline raises the same exception, and the only call made after the
    market order is the order query: no take-profit and no stop-loss order
    is submitted. *)
Theorem avg_price_absent_aborts (coin : string) (side : Side.t)
    (pct : Py.float) (tp sl : option Py.float) (w0 w1 w2 : world G)
    (oid r : pyval) (e : exn) :
  _execute_market_order session (coin ++ "USDT") side pct w0 = (Ok oid, w1) ->
  get_order_by_id session Category.SPOT oid w1 = (Ok r, w2) ->
  no_avg_price r e ->
  _get_avg_price session Category.SPOT oid w1 = (Raise e, w2) /\
  place_market_order_spot_to_usdt session coin side pct tp sl w0
    = (Raise e, w2) /\
  submitted w2 = submitted w1 ++ [order_query_call oid] /\
  orders (submitted w2) = orders (submitted w1).
Proof.
  intros Hexec Hquery Hno.
  assert (Havg : _get_avg_price session Category.SPOT oid w1 = (Raise e, w2)).
  { unfold _get_avg_price. rewrite (bind_ok _ _ _ _ _ Hquery).
    unfold lift.
    rewrite (avg_price_read r e Hno). reflexivity. }
  assert (Hsub : submitted w2 = submitted w1 ++ [order_query_call oid]).
  { exact (session_call_submitted G session _ _ _ _ _ Hquery). }
  repeat split.
  - exact Havg.
  - unfold place_market_order_spot_to_usdt.
    rewrite (bind_ok _ _ _ _ _ Hexec). apply bind_raise. exact Havg.
  - exact Hsub.
  - rewrite Hsub. apply orders_query. discriminate.
Qed.


(** The formatted balance is the balance of the coin, fetched from the
    wallet, passed through [_round_to_precision] at the quantity precision
    of the symbol; the two calls made are the balance query and the
    instrument query, and the order response is not read. *)
Theorem formatted_balance_spec (coin symbol : string) (w w1 w2 : world G)
    (b : Py.float) (p : nat) :
  get_balance session coin w = (Ok b, w1) ->
  _get_qty_precision session Category.SPOT symbol w1 = (Ok p, w2) ->
  _get_formatted_balance session coin symbol w
    = (_round_to_precision b p, w2) /\
  submitted w2 = submitted w ++ [wallet_call coin; instruments_call symbol] /\
  _round_to_precision (Py.lit "0.0023") 4 = Ok (Py.lit "0.0023").
Proof.
  intros Hb Hp. split; [ | split ].
  - unfold _get_formatted_balance.
    rewrite (bind_ok _ _ _ _ _ Hb), (bind_ok _ _ _ _ _ Hp). reflexivity.
  - rewrite (get_qty_precision_submitted _ _ _ _ Hp),
      (get_balance_submitted _ _ _ _ Hb), <- app_assoc. reflexivity.
  - vm_compute. reflexivity.
Qed.

End LookupFacts.

(** ** The two legs *)

Lemma ret_inv {G A : Type} (a b : A) (w w' : world G) :
  ret a w = (Ok b, w') -> a = b /\ w = w'.
Proof. unfold ret, Ok. intros H. injection H as -> ->. split; reflexivity. Qed.

Section LegFacts.
Variable G : Type.
Variable session : endpoint -> pydict -> G -> result pyval * G.

Lemma target_price_ok (symbol : string) (avg pct price : Py.float)
    (is_tp : bool) (w w' : world G) :
  _calculate_target_price session symbol avg pct is_tp w = (Ok price, w') ->
  exists p,
    _get_price_precision session Category.SPOT symbol w = (Ok p, w') /\
    price = (if is_tp then take_profit_target avg pct p
             else stop_loss_target avg pct p).
Proof.
  rewrite calculate_target_price_eq. intros H.
  apply bind_inv_ok in H. destruct H as (p & w1 & Hp & H).
  apply ret_inv in H. destruct H as [<- <-]. exists p. split; [ exact Hp | reflexivity ].
Qed.

(** What a stop-loss leg that returns has done. *)
Lemma set_stop_loss_ok (avg qty pct : Py.float) (symbol : string)
    (w w' : world G) :
  _set_stop_loss session avg qty symbol pct w = (Ok tt, w') ->
  exists p w1,
    _get_price_precision session Category.SPOT symbol w = (Ok p, w1) /\
    submitted w' = submitted w1
      ++ [(HTTP_place_order,
           stop_sell_payload symbol qty (stop_loss_target avg pct p))].
Proof.
  unfold _set_stop_loss. intros H.
  apply bind_inv_ok in H. destruct H as (price & w1 & Hprice & H).
  apply target_price_ok in Hprice. destruct Hprice as (p & Hp & ->).
  apply bind_inv_ok in H. destruct H as (resp & w2 & Hplace & H).
  apply ret_inv in H. destruct H as [_ <-].
  unfold _place_stop_loss in Hplace.
  apply bind_inv_ok in Hplace. destruct Hplace as (x & w3 & Hcall & H).
  apply ret_inv in H. destruct H as [_ <-].
  exists p, w1. split; [ exact Hp | ].
  unfold place_order in Hcall. rewrite order_data_stop in Hcall.
  exact (session_call_submitted G session _ _ _ _ _ Hcall).
Qed.

(** What a take-profit leg that returns has done. *)
Lemma set_take_profit_ok (avg qty pct : Py.float) (symbol : string)
    (w w' : world G) :
  _set_take_profit session avg qty symbol pct w = (Ok tt, w') ->
  exists p w1,
    _get_price_precision session Category.SPOT symbol w = (Ok p, w1) /\
    submitted w' = submitted w1
      ++ [(HTTP_place_order,
           limit_sell_payload symbol qty (take_profit_target avg pct p))].
Proof.
  unfold _set_take_profit. intros H.
  apply bind_inv_ok in H. destruct H as (price & w1 & Hprice & H).
  apply target_price_ok in Hprice. destruct Hprice as (p & Hp & ->).
  apply bind_inv_ok in H. destruct H as (resp & w2 & Hplace & H).
  apply ret_inv in H. destruct H as [_ <-].
  unfold _place_limit_order, place_order in Hplace.
  exists p, w1. split; [ exact Hp | ].
  rewrite order_data_limit in Hplace.
  exact (call_then_compute G session _ _ _ _ _ _ Hplace).
Qed.

Lemma leg_orders (l1 l : list call) (symbol : string) (payload : pydict) :
  l1 = l ++ [instruments_call symbol] ->
  orders (l1 ++ [(HTTP_place_order, payload)]) = orders l ++ [payload].
Proof.
  intros ->. rewrite orders_placed. unfold instruments_call.
  rewrite orders_query by discriminate. reflexivity.
Qed.

Lemma if_percentage_skip (percentage : option Py.float)
    (leg : Py.float -> M G unit) (w : world G) :
  leg_requested percentage = false ->
  if_percentage percentage leg w = (Ok tt, w).
Proof.
  unfold leg_requested, if_percentage. destruct percentage as [ p | ].
  - intros ->. reflexivity.
  - reflexivity.
Qed.

Lemma if_percentage_run (percentage : option Py.float)
    (leg : Py.float -> M G unit) (w : world G) :
  leg_requested percentage = true ->
  exists p, percentage = Some p /\ if_percentage percentage leg w = leg p w.
Proof.
  unfold leg_requested, if_percentage. destruct percentage as [ p | ].
  - intros ->. exists p. split; reflexivity.
  - discriminate.
Qed.

(** The orders a leg adds: one when it is requested, none otherwise. *)
Lemma stop_loss_leg_orders (avg qty : Py.float) (symbol : string)
    (sl : option Py.float) (w w' : world G) :
  if_percentage sl (_set_stop_loss session avg qty symbol) w = (Ok tt, w') ->
  (leg_requested sl = false /\ w' = w) \/
  (exists pct p,
     sl = Some pct /\ float_bool pct = true /\
     orders (submitted w') = orders (submitted w)
       ++ [stop_sell_payload symbol qty (stop_loss_target avg pct p)]).
Proof.
  intros H. destruct (leg_requested sl) eqn:E.
  - right. destruct (if_percentage_run sl (_set_stop_loss session avg qty symbol)
                       w E) as (pct & -> & Hrun).
    rewrite Hrun in H. apply set_stop_loss_ok in H.
    destruct H as (p & w1 & Hp & Hsub).
    exists pct, p. split; [ reflexivity | ]. split; [ exact E | ].
    rewrite Hsub. apply (leg_orders _ _ symbol).
    exact (get_price_precision_submitted G session _ _ _ _ Hp).
  - left. rewrite (if_percentage_skip _ _ _ E) in H.
    injection H as <-. split; reflexivity.
Qed.

Lemma take_profit_leg_orders (avg qty : Py.float) (symbol : string)
    (tp : option Py.float) (w w' : world G) :
  if_percentage tp (_set_take_profit session avg qty symbol) w = (Ok tt, w') ->
  (leg_requested tp = false /\ w' = w) \/
  (exists pct p,
     tp = Some pct /\ float_bool pct = true /\
     orders (submitted w') = orders (submitted w)
       ++ [limit_sell_payload symbol qty (take_profit_target avg pct p)]).
Proof.
  intros H. destruct (leg_requested tp) eqn:E.
  - right. destruct (if_percentage_run tp
                       (_set_take_profit session avg qty symbol) w E)
      as (pct & -> & Hrun).
    rewrite Hrun in H. apply set_take_profit_ok in H.
    destruct H as (p & w1 & Hp & Hsub).
    exists pct, p. split; [ reflexivity | ]. split; [ exact E | ].
    rewrite Hsub. apply (leg_orders _ _ symbol).
    exact (get_price_precision_submitted G session _ _ _ _ Hp).
  - left. rewrite (if_percentage_skip _ _ _ E) in H.
    injection H as <-. split; reflexivity.
Qed.

(** Claim C8.  When both percentages are supplied and not zero and the
    pipeline returns, the orders submitted after the quantity is known are
    the stop-loss leg, a market sell with the stop-order filter and no
    price, and the take-profit leg, a limit sell at the take-profit price;
    both carry the same quantity, the whole formatted balance.  The
    stop-loss leg carries its trigger price whenever that price is not
    zero. *)
Theorem legs_payloads (coin : string) (side : Side.t)
    (pct avg qty tp_pct sl_pct : Py.float) (oid : pyval)
    (w0 w1 w2 w3 w5 : world G) :
  _execute_market_order session (coin ++ "USDT") side pct w0 = (Ok oid, w1) ->
  _get_avg_price session Category.SPOT oid w1 = (Ok avg, w2) ->
  _get_formatted_balance session coin (coin ++ "USDT") w2 = (Ok qty, w3) ->
  float_bool tp_pct = true -> float_bool sl_pct = true ->
  place_market_order_spot_to_usdt session coin side pct
    (Some tp_pct) (Some sl_pct) w0 = (Ok tt, w5) ->
  exists p_sl p_tp : nat,
    let sl_price := stop_loss_target avg sl_pct p_sl in
    let tp_price := take_profit_target avg tp_pct p_tp in
    let sl_leg := stop_sell_payload (coin ++ "USDT") qty sl_price in
    let tp_leg := limit_sell_payload (coin ++ "USDT") qty tp_price in
    orders (submitted w5) = orders (submitted w3) ++ [sl_leg; tp_leg] /\
    dict_get tp_leg "side" = Some (VStr "Sell") /\
    dict_get tp_leg "orderType" = Some (VStr "Limit") /\
    dict_get tp_leg "price" = Some (VFloat tp_price) /\
    dict_get tp_leg "qty" = Some (VFloat qty) /\
    dict_get sl_leg "side" = Some (VStr "Sell") /\
    dict_get sl_leg "orderType" = Some (VStr "Market") /\
    dict_get sl_leg "orderFilter" = Some (VStr "StopOrder") /\
    dict_get sl_leg "qty" = Some (VFloat qty) /\
    dict_get sl_leg "price" = None /\
    (float_bool sl_price = true ->
     dict_get sl_leg "triggerPrice" = Some (VFloat sl_price)).
Proof.
  intros Hexec Havg Hqty Etp Esl Hrun.
  unfold place_market_order_spot_to_usdt in Hrun.
  rewrite (bind_ok _ _ _ _ _ Hexec), (bind_ok _ _ _ _ _ Havg),
    (bind_ok _ _ _ _ _ Hqty) in Hrun.
  apply bind_inv_ok in Hrun. destruct Hrun as ([] & w4 & Hsl & Htp).
  destruct (stop_loss_leg_orders _ _ _ _ _ _ Hsl)
    as [[E _] | (s & p_sl & Es & _ & Hosl)];
    [ simpl in E; congruence | ].
  destruct (take_profit_leg_orders _ _ _ _ _ _ Htp)
    as [[E _] | (t & p_tp & Et & _ & Hotp)];
    [ simpl in E; congruence | ].
  injection Es as <-. injection Et as <-.
  exists p_sl, p_tp. cbv zeta.
  split; [ rewrite Hotp, Hosl, <- app_assoc; reflexivity | ].
  unfold stop_sell_payload.
  destruct (float_bool (stop_loss_target avg sl_pct p_sl));
    repeat split; intros; try reflexivity; discriminate.
Qed.

End LegFacts.

(** ** The pipeline on the scripted exchange *)

(** C4 on an exchange whose order query returns an empty list. *)
Lemma avg_price_absent_aborts_witness :
  no_avg_price (Demo.listing []) IndexError /\
  fst (place_market_order_spot_to_usdt (Demo.exchange_of Scenario.unfilled)
         "BTC" Side.BUY (Py.lit "10") (Some (Py.lit "10"))
         (Some (Py.lit "10")) Demo.start) = Raise IndexError.
Proof.
  split; [ apply no_orders; reflexivity | ].
  edestruct (avg_price_absent_aborts unit
               (Demo.exchange_of Scenario.unfilled) "BTC" Side.BUY
               (Py.lit "10") (Some (Py.lit "10")) (Some (Py.lit "10"))
               Demo.start) as (_ & Hrun & _);
    [ cbv; reflexivity | cbv; reflexivity | apply no_orders; reflexivity | ].
  rewrite Hrun. reflexivity.
Defined.

(** Claim C4 on an order that has no fills: the order query returns an
    empty list and [_get_avg_price] raises [IndexError], not an error
    named OrderNotFilled. *)
Lemma avg_price_error_is_not_OrderNotFilled :
  fst (get_order_by_id (Demo.exchange_of Scenario.unfilled) Category.SPOT
         (VStr "1") Demo.start) = Ok (Demo.listing []) /\
  no_avg_price (Demo.listing []) IndexError /\
  exists e,
    fst (_get_avg_price (Demo.exchange_of Scenario.unfilled) Category.SPOT
           (VStr "1") Demo.start) = Raise e /\
    exn_name e <> "OrderNotFilled".
Proof.
  split; [ reflexivity | ]. split; [ apply no_orders; reflexivity | ].
  exists IndexError. split; [ reflexivity | discriminate ].
Qed.



(** The formatted balance on the scripted exchange: 0.0023 BTC at
    precision 4. *)
Lemma formatted_balance_spec_witness :
  fst (get_balance (Demo.exchange_of Demo.btc) "BTC" Demo.start)
    = Ok (Py.lit "0.0023") /\
  fst (_get_formatted_balance (Demo.exchange_of Demo.btc) "BTC" "BTCUSDT"
         Demo.start) = Ok (Py.lit "0.0023").
Proof.
  split; [ vm_compute; reflexivity | ].
  edestruct (formatted_balance_spec unit (Demo.exchange_of Demo.btc)
               "BTC" "BTCUSDT" Demo.start) as (Hrun & _);
    [ cbv; reflexivity | cbv; reflexivity | ].
  rewrite Hrun. vm_compute. reflexivity.
Defined.

(** Claim C6.  The quantity of the legs is the balance of the base coin
    passed through [_round_to_precision] at the quantity precision of the
    symbol: 0.0023 at precision 4 stays 0.0023 and 0.00239 becomes 0.0023.
    It is not always rounded down, though: a balance of
    0.8999999999999999 at precision 1 gives 0.9, more than the balance,
    and both legs are submitted with that quantity. *)
Theorem formatted_balance_overshoots :
  let run (balance step : string) :=
    _get_formatted_balance Replay.exchange "BTC" "BTCUSDT"
      (Replay.start [Replay.wallet balance; Replay.instrument step "0.01"]) in
  let pipeline :=
    place_market_order_spot_to_usdt Replay.exchange "BTC" Side.BUY
      (Py.lit "10") (Some (Py.lit "10")) (Some (Py.lit "10"))
      (Replay.start
         [ Replay.wallet "1000"; Replay.accepted; Replay.filled "100";
           Replay.wallet "0.8999999999999999";
           Replay.instrument "0.1" "0.01";
           Replay.instrument "0.1" "0.01"; Replay.accepted;
           Replay.instrument "0.1" "0.01"; Replay.accepted ]) in
  fst (run "0.0023" "0.0001") = Ok (Py.lit "0.0023") /\
  fst (run "0.00239" "0.0001") = Ok (Py.lit "0.0023") /\
  submitted (snd (run "0.0023" "0.0001"))
    = [wallet_call "BTC"; instruments_call "BTCUSDT"] /\
  fst (run "0.8999999999999999" "0.1") = Ok (Py.lit "0.9") /\
  Py.flt (Py.lit "0.8999999999999999") (Py.lit "0.9") = true /\
  fst pipeline = Ok tt /\
  map (fun leg => dict_get leg "qty") (sell_orders (submitted (snd pipeline)))
    = [Some (VFloat (Py.lit "0.9")); Some (VFloat (Py.lit "0.9"))].
Proof. cbv zeta. repeat split; vm_compute; reflexivity. Qed.

(** Claim C7 with a take-profit percentage of zero: the percentage is
    supplied, the pipeline returns, and no sell order is submitted. *)
Lemma take_profit_supplied_but_not_placed :
  let run :=
    place_market_order_spot_to_usdt (Demo.exchange_of Demo.btc) "BTC"
      Side.BUY (Py.lit "10") (Some (Py.lit "0")) None Demo.start in
  fst run = Ok tt /\ sell_orders (submitted (snd run)) = [].
Proof. split; vm_compute; reflexivity. Qed.

(** C8 on the scripted exchange, with both percentages at 10. *)
Lemma legs_payloads_witness :
  float_bool (Py.lit "10") = true /\
  exists p_sl p_tp : nat,
    orders (submitted (snd
      (place_market_order_spot_to_usdt (Demo.exchange_of Demo.btc) "BTC"
         Side.BUY (Py.lit "10") (Some (Py.lit "10")) (Some (Py.lit "10"))
         Demo.start)))
    = orders (submitted (snd
        (bind (_execute_market_order (Demo.exchange_of Demo.btc) "BTCUSDT"
                 Side.BUY (Py.lit "10"))
           (fun oid =>
              bind (_get_avg_price (Demo.exchange_of Demo.btc)
                      Category.SPOT oid)
                (fun _ => _get_formatted_balance (Demo.exchange_of Demo.btc)
                            "BTC" "BTCUSDT")) Demo.start)))
      ++ [stop_sell_payload "BTCUSDT" (Py.lit "0.0023")
            (stop_loss_target (Py.lit "100") (Py.lit "10") p_sl);
          limit_sell_payload "BTCUSDT" (Py.lit "0.0023")
            (take_profit_target (Py.lit "100") (Py.lit "10") p_tp)].
Proof.
  split; [ reflexivity | ].
  edestruct (legs_payloads unit (Demo.exchange_of Demo.btc) "BTC" Side.BUY
               (Py.lit "10") (Py.lit "100") (Py.lit "0.0023") (Py.lit "10")
               (Py.lit "10") (VStr "1") Demo.start)
    as (p_sl & p_tp & H & _);
    [ cbv; reflexivity | cbv; reflexivity | cbv; reflexivity
    | reflexivity | reflexivity | cbv; reflexivity | ].
  exists p_sl, p_tp. exact H.
Defined.

(** Claim C8 with a stop-loss percentage of 100: the stop price is zero,
    [place_order] drops it, and the stop-loss leg is submitted as a market
    sell without a trigger price. *)
Lemma stop_loss_without_trigger_price :
  let run :=
    place_market_order_spot_to_usdt (Demo.exchange_of Demo.btc) "BTC"
      Side.BUY (Py.lit "10") (Some (Py.lit "10")) (Some (Py.lit "100"))
      Demo.start in
  fst run = Ok tt /\
  exists sl_leg tp_leg,
    sell_orders (submitted (snd run)) = [sl_leg; tp_leg] /\
    dict_get sl_leg "orderType" = Some (VStr "Market") /\
    dict_get sl_leg "orderFilter" = Some (VStr "StopOrder") /\
    dict_get sl_leg "triggerPrice" = None.
Proof.
  split; [ vm_compute; reflexivity | ].
  eexists. eexists. split; [ vm_compute; reflexivity | ].
  repeat split; reflexivity.
Qed.

(** * Further properties of the code *)

(** ** Dictionaries *)

Lemma dict_get_set (d : pydict) (k k' : string) (v : pyval) :
  dict_get (dict_set d k v) k'
  = if String.eqb k k' then Some v else dict_get d k'.
Proof.
  induction d as [ | [k0 v0] d IH ]; simpl.
  - reflexivity.
  - destruct (String.eqb k0 k) eqn:E0; simpl.
    + apply String.eqb_eq in E0. subst k0.
      destruct (String.eqb k k'); reflexivity.
    + rewrite IH.
      destruct (String.eqb k0 k') eqn:E1, (String.eqb k k') eqn:E2;
        try reflexivity.
      apply String.eqb_eq in E1, E2. subst k0 k'.
      rewrite String.eqb_refl in E0. discriminate E0.
Qed.

Lemma dict_get_set_if (c : bool) (d : pydict) (k k' : string) (v : pyval) :
  dict_get (set_if c k v d) k'
  = if String.eqb k k' then (if c then Some v else dict_get d k')
    else dict_get d k'.
Proof.
  unfold set_if. destruct c.
  - rewrite dict_get_set. destruct (String.eqb k k'); reflexivity.
  - destruct (String.eqb k k'); reflexivity.
Qed.

Lemma dict_get_set_some {A : Type} (x : option A) (value : A -> pyval)
    (d : pydict) (k k' : string) :
  dict_get (set_some x k value d) k'
  = if String.eqb k k'
    then match x with Some a => Some (value a) | None => dict_get d k' end
    else dict_get d k'.
Proof.
  unfold set_some. destruct x as [ a | ].
  - rewrite dict_get_set. destruct (String.eqb k k'); reflexivity.
  - destruct (String.eqb k k'); reflexivity.
Qed.

Lemma keys_dict_set (d : pydict) (k : string) (v : pyval) :
  keys (dict_set d k v) = if existsb (String.eqb k) (keys d) then keys d
                          else keys d ++ [k].
Proof.
  unfold keys. induction d as [ | [k0 v0] d IH ]; simpl.
  - reflexivity.
  - rewrite (String.eqb_sym k k0).
    destruct (String.eqb k0 k); simpl; [ reflexivity | ].
    rewrite IH. destruct (existsb (String.eqb k) (map fst d)); reflexivity.
Qed.

Lemma existsb_eqb_In (k : string) (l : list string) :
  existsb (String.eqb k) l = true <-> In k l.
Proof.
  rewrite existsb_exists. split.
  - intros (x & Hx & E). apply String.eqb_eq in E. subst x. exact Hx.
  - intros H. exists k. split; [ exact H | apply String.eqb_refl ].
Qed.

(** Writing a key keeps the keys distinct. *)
Lemma NoDup_keys_dict_set (d : pydict) (k : string) (v : pyval) :
  NoDup (keys d) -> NoDup (keys (dict_set d k v)).
Proof.
  intros H. rewrite keys_dict_set.
  destruct (existsb (String.eqb k) (keys d)) eqn:E; [ exact H | ].
  apply NoDup_app; [ exact H | constructor; [ intros [] | constructor ] | ].
  intros x Hx [<- | []].
  apply existsb_eqb_In in Hx. congruence.
Qed.

Lemma NoDup_keys_set_if (c : bool) (d : pydict) (k : string) (v : pyval) :
  NoDup (keys d) -> NoDup (keys (set_if c k v d)).
Proof.
  unfold set_if. destruct c; [ apply NoDup_keys_dict_set | exact (fun H => H) ].
Qed.

Lemma NoDup_keys_set_some {A : Type} (x : option A) (value : A -> pyval)
    (d : pydict) (k : string) :
  NoDup (keys d) -> NoDup (keys (set_some x k value d)).
Proof.
  unfold set_some. destruct x; [ apply NoDup_keys_dict_set | exact (fun H => H) ].
Qed.

Lemma incl_keys_dict_set (d : pydict) (k : string) (v : pyval)
    (l : list string) :
  incl (keys d) l -> In k l -> incl (keys (dict_set d k v)) l.
Proof.
  intros H Hk. rewrite keys_dict_set.
  destruct (existsb (String.eqb k) (keys d)); [ exact H | ].
  apply incl_app; [ exact H | ]. intros x [<- | []]. exact Hk.
Qed.

Lemma incl_keys_set_if (c : bool) (d : pydict) (k : string) (v : pyval)
    (l : list string) :
  incl (keys d) l -> In k l -> incl (keys (set_if c k v d)) l.
Proof.
  unfold set_if. destruct c; [ apply incl_keys_dict_set | exact (fun H _ => H) ].
Qed.

Lemma incl_keys_set_some {A : Type} (x : option A) (value : A -> pyval)
    (d : pydict) (k : string) (l : list string) :
  incl (keys d) l -> In k l -> incl (keys (set_some x k value d)) l.
Proof.
  unfold set_some.
  destruct x; [ apply incl_keys_dict_set | exact (fun H _ => H) ].
Qed.

(** A key that is looked up and found is one of the keys. *)
Lemma dict_get_In (d : pydict) (k : string) (v : pyval) :
  dict_get d k = Some v -> In k (keys d).
Proof.
  unfold keys. induction d as [ | [k0 v0] d IH ]; simpl; [ discriminate | ].
  destruct (String.eqb k0 k) eqn:E.
  - apply String.eqb_eq in E. intros _. left. exact E.
  - intros H. right. exact (IH H).
Qed.

Ltac dict_lookup :=
  repeat (first [ rewrite dict_get_set_if | rewrite dict_get_set_some ];
          cbn [String.eqb Ascii.eqb Bool.eqb]);
  cbn [String.eqb Ascii.eqb Bool.eqb dict_get].

(** ** The payload of an order *)

Lemma order_data_required_present (a : order_args) (k : string) :
  In k required_keys -> dict_get (order_data a) k <> None.
Proof.
  intros Hk. simpl in Hk. unfold order_data. cbv zeta.
  repeat (destruct Hk as [<- | Hk]; [ dict_lookup; discriminate | ]).
  destruct Hk.
Qed.

(** X1.  Whatever optional arguments are passed, the payload of
    [place_order] carries the eight required fields with the values of the
    call: no optional argument overwrites one of them. *)
Theorem order_data_required_fields (a : order_args) :
  dict_get (order_data a) "category" = Some (VStr (Category.value (category a)))
  /\ dict_get (order_data a) "symbol" = Some (VStr (symbol a))
  /\ dict_get (order_data a) "side" = Some (VStr (Side.value (side a)))
  /\ dict_get (order_data a) "orderType"
     = Some (VStr (OrderType.value (order_type a)))
  /\ dict_get (order_data a) "qty" = Some (qty a)
  /\ dict_get (order_data a) "timeInForce"
     = Some (VStr (TimeInForce.value (time_in_force a)))
  /\ dict_get (order_data a) "isLeverage" = Some (VInt (is_leverage a))
  /\ dict_get (order_data a) "orderFilter"
     = Some (VStr (OrderFilter.value (order_filter a))).
Proof.
  unfold order_data. cbv zeta.
  repeat split; dict_lookup; reflexivity.
Qed.

(** X2.  The optional fields of the payload of [place_order]: the price is
    sent whenever it is not [None], even when it is zero or empty; the
    flags [reduce_only] and [close_on_trigger] are sent whenever they are
    not [None], even when false; every other optional argument is sent
    only when it is true, so that a zero, an empty string or [None] leaves
    the key out. *)
Theorem order_data_optional_fields (a : order_args) :
  dict_get (order_data a) "price"
    = (if is_not_None (price a) then Some (price a) else None)
  /\ dict_get (order_data a) "orderLinkId"
    = (if truthy (order_link_id a) then Some (order_link_id a) else None)
  /\ dict_get (order_data a) "marketUnit"
    = (if truthy (market_unit a) then Some (market_unit a) else None)
  /\ dict_get (order_data a) "triggerPrice"
    = (if truthy (trigger_price a) then Some (trigger_price a) else None)
  /\ dict_get (order_data a) "triggerDirection"
    = option_map (fun x => VInt (TriggerDirection.value x))
        (trigger_direction a)
  /\ dict_get (order_data a) "triggerBy"
    = option_map (fun x => VStr (TriggerBy.value x)) (trigger_by a)
  /\ dict_get (order_data a) "takeProfit"
    = (if truthy (take_profit a) then Some (take_profit a) else None)
  /\ dict_get (order_data a) "stopLoss"
    = (if truthy (stop_loss a) then Some (stop_loss a) else None)
  /\ dict_get (order_data a) "tpTriggerBy"
    = option_map (fun x => VStr (TriggerBy.value x)) (tp_trigger_by a)
  /\ dict_get (order_data a) "slTriggerBy"
    = option_map (fun x => VStr (TriggerBy.value x)) (sl_trigger_by a)
  /\ dict_get (order_data a) "reduceOnly" = option_map VBool (reduce_only a)
  /\ dict_get (order_data a) "closeOnTrigger"
    = option_map VBool (close_on_trigger a)
  /\ dict_get (order_data a) "tpslMode"
    = option_map (fun x => VStr (TP_SL_Mode.value x)) (tp_sl_mode a)
  /\ dict_get (order_data a) "tpLimitPrice"
    = (if truthy (tp_limit_price a) then Some (tp_limit_price a) else None)
  /\ dict_get (order_data a) "slLimitPrice"
    = (if truthy (sl_limit_price a) then Some (sl_limit_price a) else None)
  /\ dict_get (order_data a) "tpOrderType"
    = option_map (fun x => VStr (TP_SL_OrderType.value x)) (tp_order_type a)
  /\ dict_get (order_data a) "slOrderType"
    = option_map (fun x => VStr (TP_SL_OrderType.value x)) (sl_order_type a).
Proof.
  unfold order_data. cbv zeta.
  repeat split; dict_lookup;
    repeat match goal with
           | |- context [match ?x with Some _ => _ | None => _ end] =>
               destruct x
           end; reflexivity.
Qed.

(** X3.  The payload of [place_order] never holds a key twice, holds only
    the twenty-five keys of the code, and has one entry per required key
    at the least. *)
Theorem order_data_keys (a : order_args) :
  NoDup (keys (order_data a)) /\
  incl (keys (order_data a)) (required_keys ++ optional_keys) /\
  incl required_keys (keys (order_data a)) /\
  (8 <= List.length (order_data a) <= 25)%nat.
Proof.
  assert (Hnd : NoDup (keys (order_data a))).
  { unfold order_data. cbv zeta.
    repeat first [ apply NoDup_keys_set_if | apply NoDup_keys_set_some ].
    unfold keys. simpl.
    repeat (constructor; [ simpl; intuition discriminate | ]). constructor. }
  assert (Hin : incl (keys (order_data a)) (required_keys ++ optional_keys)).
  { unfold order_data. cbv zeta.
    repeat first
      [ apply incl_keys_set_if; [ | simpl; tauto ]
      | apply incl_keys_set_some; [ | simpl; tauto ] ].
    unfold keys. simpl. intros x Hx. simpl in Hx. simpl. tauto. }
  assert (Hreq : incl required_keys (keys (order_data a))).
  { intros k Hk. pose proof (order_data_required_present a k Hk) as H.
    destruct (dict_get (order_data a) k) eqn:E; [ | congruence ].
    exact (dict_get_In _ _ _ E). }
  split; [ exact Hnd | ]. split; [ exact Hin | ]. split; [ exact Hreq | ].
  split.
  - change 8%nat with (List.length required_keys).
    unfold keys in Hreq.
    rewrite <- (length_map fst (order_data a)).
    apply NoDup_incl_length; [ | exact Hreq ].
    unfold required_keys.
    repeat (constructor; [ simpl; intuition discriminate | ]). constructor.
  - change 25%nat with (List.length (required_keys ++ optional_keys)).
    rewrite <- (length_map fst (order_data a)).
    apply NoDup_incl_length; [ exact Hnd | exact Hin ].
Qed.

(** ** The steps of the pipeline *)

Lemma bind_inv_raise {G A B : Type} (m : M G A) (k : A -> M G B)
    (w w'' : world G) (e : exn) :
  bind m k w = (Raise e, w'') ->
  m w = (Raise e, w'') \/
  exists a w', m w = (Ok a, w') /\ k a w' = (Raise e, w'').
Proof.
  unfold bind. destruct (m w) as [[e' | a] w'] eqn:E; intros H.
  - left. unfold Raise in *. injection H as -> ->. reflexivity.
  - right. exists a, w'. split; [ reflexivity | exact H ].
Qed.

Lemma lift_inv {G A : Type} (r x : result A) (w w' : world G) :
  lift r w = (x, w') -> r = x /\ w = w'.
Proof. unfold lift. intros H. injection H as -> ->. split; reflexivity. Qed.

Lemma order_data_market (symbol : string) (side : Side.t) (qty : Py.float) :
  order_data
    (with_market_unit (VStr "quoteCoin")
       (order_defaults Category.SPOT symbol side OrderType.MARKET
          (VFloat qty)))
  = market_order_payload symbol side qty.
Proof. reflexivity. Qed.

Section StepFacts.
Variable G : Type.
Variable session : endpoint -> pydict -> G -> result pyval * G.

Lemma session_call_answer (ep : endpoint) (kwargs : pydict) (w : world G)
    (r : result pyval) (g : G) :
  session ep kwargs (exchange w) = (r, g) ->
  session_call session ep kwargs w
    = (r, World g (submitted w ++ [(ep, kwargs)])).
Proof. unfold session_call. intros ->. reflexivity. Qed.

Lemma calculate_order_qty_run (symbol : string) (P B : Py.float)
    (w w' : world G) :
  get_balance session "USDT" w = (Ok B, w') ->
  _calculate_order_qty session symbol P w
    = (Ok (quantity_calculator B P), w').
Proof.
  intros H. unfold _calculate_order_qty. rewrite (bind_ok _ _ _ _ _ H).
  unfold lift. rewrite float_div_int_100. reflexivity.
Qed.

Lemma calculate_order_qty_ok (symbol : string) (P q : Py.float)
    (w w' : world G) :
  _calculate_order_qty session symbol P w = (Ok q, w') ->
  exists B, get_balance session "USDT" w = (Ok B, w') /\
            q = quantity_calculator B P.
Proof.
  unfold _calculate_order_qty. intros H.
  apply bind_inv_ok in H. destruct H as (B & w1 & Hb & H).
  apply lift_inv in H. destruct H as [H <-].
  rewrite float_div_int_100 in H. unfold rbind, Ok in H.
  injection H as <-. exists B. split; [ exact Hb | reflexivity ].
Qed.

Lemma calculate_order_qty_raise (symbol : string) (P : Py.float) (e : exn)
    (w w' : world G) :
  _calculate_order_qty session symbol P w = (Raise e, w') ->
  get_balance session "USDT" w = (Raise e, w').
Proof.
  unfold _calculate_order_qty. intros H.
  apply bind_inv_raise in H. destruct H as [H | (B & w1 & Hb & H)].
  - exact H.
  - apply lift_inv in H. destruct H as [H _].
    rewrite float_div_int_100 in H. discriminate H.
Qed.

(** What a market order that returns has submitted. *)
Lemma execute_market_order_ok (symbol : string) (side : Side.t)
    (P : Py.float) (oid : pyval) (w w' : world G) :
  _execute_market_order session symbol side P w = (Ok oid, w') ->
  exists B,
    submitted w' = submitted w
      ++ [wallet_call "USDT";
          (HTTP_place_order,
           market_order_payload symbol side (quantity_calculator B P))].
Proof.
  unfold _execute_market_order. intros H.
  apply bind_inv_ok in H. destruct H as (q & w1 & Hq & H).
  apply calculate_order_qty_ok in Hq. destruct Hq as (B & Hb & ->).
  apply bind_inv_ok in H. destruct H as (resp & w2 & Hcall & H).
  apply lift_inv in H. destruct H as [_ <-].
  unfold place_order in Hcall. rewrite order_data_market in Hcall.
  exists B.
  rewrite (session_call_submitted G session _ _ _ _ _ Hcall),
    (get_balance_submitted G session _ _ _ _ Hb), <- app_assoc.
  reflexivity.
Qed.

Lemma get_avg_price_submitted (oid : pyval) (w w' : world G)
    (r : result Py.float) :
  _get_avg_price session Category.SPOT oid w = (r, w') ->
  submitted w' = submitted w ++ [order_query_call oid].
Proof. apply call_then_compute. Qed.

Lemma formatted_balance_submitted (coin symbol : string) (q : Py.float)
    (w w' : world G) :
  _get_formatted_balance session coin symbol w = (Ok q, w') ->
  submitted w' = submitted w ++ [wallet_call coin; instruments_call symbol].
Proof.
  unfold _get_formatted_balance. intros H.
  apply bind_inv_ok in H. destruct H as (b & w1 & Hb & H).
  apply bind_inv_ok in H. destruct H as (p & w2 & Hp & H).
  apply lift_inv in H. destruct H as [_ <-].
  rewrite (get_qty_precision_submitted G session _ _ _ _ Hp),
    (get_balance_submitted G session _ _ _ _ Hb), <- app_assoc.
  reflexivity.
Qed.

Lemma stop_loss_step_calls (avg qty : Py.float) (symbol : string)
    (sl : option Py.float) (w w' : world G) :
  if_percentage sl (_set_stop_loss session avg qty symbol) w = (Ok tt, w') ->
  exists p, submitted w' = submitted w ++ stop_loss_calls symbol avg qty sl p.
Proof.
  intros H. unfold stop_loss_calls. destruct (leg_requested sl) eqn:E.
  - destruct (if_percentage_run G sl (_set_stop_loss session avg qty symbol)
                w E) as (pct & -> & Hrun).
    rewrite Hrun in H. apply set_stop_loss_ok in H.
    destruct H as (p & w1 & Hp & Hsub). exists p.
    rewrite Hsub, (get_price_precision_submitted G session _ _ _ _ Hp),
      <- app_assoc. reflexivity.
  - rewrite (if_percentage_skip G _ _ _ E) in H. injection H as <-.
    exists 0%nat. rewrite app_nil_r. reflexivity.
Qed.

Lemma take_profit_step_calls (avg qty : Py.float) (symbol : string)
    (tp : option Py.float) (w w' : world G) :
  if_percentage tp (_set_take_profit session avg qty symbol) w = (Ok tt, w') ->
  exists p, submitted w' = submitted w ++ take_profit_calls symbol avg qty tp p.
Proof.
  intros H. unfold take_profit_calls. destruct (leg_requested tp) eqn:E.
  - destruct (if_percentage_run G tp (_set_take_profit session avg qty symbol)
                w E) as (pct & -> & Hrun).
    rewrite Hrun in H. apply set_take_profit_ok in H.
    destruct H as (p & w1 & Hp & Hsub). exists p.
    rewrite Hsub, (get_price_precision_submitted G session _ _ _ _ Hp),
      <- app_assoc. reflexivity.
  - rewrite (if_percentage_skip G _ _ _ E) in H. injection H as <-.
    exists 0%nat. rewrite app_nil_r. reflexivity.
Qed.

Lemma target_price_raise (symbol : string) (avg pct : Py.float)
    (is_tp : bool) (e : exn) (w w' : world G) :
  _calculate_target_price session symbol avg pct is_tp w = (Raise e, w') ->
  submitted w' = submitted w ++ [instruments_call symbol].
Proof.
  rewrite calculate_target_price_eq. intros H.
  apply bind_inv_raise in H. destruct H as [H | (p & w1 & Hp & H)].
  - exact (get_price_precision_submitted G session _ _ _ _ H).
  - discriminate H.
Qed.

(** What a stop-loss step that raises has submitted: the instrument
    query, and the stop order when it is the order that failed. *)
Lemma set_stop_loss_raise (avg qty pct : Py.float) (symbol : string)
    (e : exn) (w w' : world G) :
  _set_stop_loss session avg qty symbol pct w = (Raise e, w') ->
  submitted w' = submitted w ++ [instruments_call symbol] \/
  exists p,
    submitted w' = submitted w
      ++ [instruments_call symbol;
          (HTTP_place_order,
           stop_sell_payload symbol qty (stop_loss_target avg pct p))].
Proof.
  unfold _set_stop_loss. intros H.
  apply bind_inv_raise in H. destruct H as [H | (price & w1 & Hprice & H)].
  - left. exact (target_price_raise _ _ _ _ _ _ _ H).
  - right. apply target_price_ok in Hprice. destruct Hprice as (p & Hp & ->).
    exists p.
    apply bind_inv_raise in H. destruct H as [H | (x & w2 & _ & H)];
      [ | discriminate H ].
    unfold _place_stop_loss in H.
    apply bind_inv_raise in H. destruct H as [H | (x & w2 & _ & H)];
      [ | discriminate H ].
    unfold place_order in H. rewrite order_data_stop in H.
    rewrite (session_call_submitted G session _ _ _ _ _ H),
      (get_price_precision_submitted G session _ _ _ _ Hp), <- app_assoc.
    reflexivity.
Qed.

(** What a take-profit step that raises has submitted. *)
Lemma set_take_profit_raise (avg qty pct : Py.float) (symbol : string)
    (e : exn) (w w' : world G) :
  _set_take_profit session avg qty symbol pct w = (Raise e, w') ->
  submitted w' = submitted w ++ [instruments_call symbol] \/
  exists p,
    submitted w' = submitted w
      ++ [instruments_call symbol;
          (HTTP_place_order,
           limit_sell_payload symbol qty (take_profit_target avg pct p))].
Proof.
  unfold _set_take_profit. intros H.
  apply bind_inv_raise in H. destruct H as [H | (price & w1 & Hprice & H)].
  - left. exact (target_price_raise _ _ _ _ _ _ _ H).
  - right. apply target_price_ok in Hprice. destruct Hprice as (p & Hp & ->).
    exists p.
    apply bind_inv_raise in H. destruct H as [H | (x & w2 & _ & H)];
      [ | discriminate H ].
    unfold _place_limit_order, place_order in H.
    rewrite order_data_limit in H.
    rewrite (call_then_compute G session _ _ _ _ _ _ H),
      (get_price_precision_submitted G session _ _ _ _ Hp), <- app_assoc.
    reflexivity.
Qed.

(** X4.  The market order: once the USDT balance [B] is read and the
    exchange answers the order, [_execute_market_order] has made two calls,
    the balance query and one order, and returns the [orderId] of the
    answer.  The order is a market order on the given side, sized in the
    quote coin at [round(B * (P / 100), 0)], and carries no price. *)
Theorem execute_market_order_spec (symbol : string) (side : Side.t)
    (P B : Py.float) (w w1 : world G) (r : pyval) (g : G) :
  let payload := market_order_payload symbol side (quantity_calculator B P) in
  get_balance session "USDT" w = (Ok B, w1) ->
  session HTTP_place_order payload (exchange w1) = (Ok r, g) ->
  _execute_market_order session symbol side P w
    = (subscripts r [Key "result"; Key "orderId"],
       World g (submitted w
                ++ [wallet_call "USDT"; (HTTP_place_order, payload)])) /\
  dict_get payload "orderType" = Some (VStr "Market") /\
  dict_get payload "side" = Some (VStr (Side.value side)) /\
  dict_get payload "qty" = Some (VFloat (quantity_calculator B P)) /\
  dict_get payload "marketUnit" = Some (VStr "quoteCoin") /\
  dict_get payload "price" = None.
Proof.
  intros payload Hb Hcall. split; [ | repeat split ].
  unfold _execute_market_order.
  rewrite (bind_ok _ _ _ _ _ (calculate_order_qty_run symbol P B w w1 Hb)).
  unfold place_order. rewrite order_data_market.
  rewrite (bind_ok _ _ _ _ _ (session_call_answer _ _ _ _ _ Hcall)).
  unfold lift. rewrite (get_balance_submitted G session _ _ _ _ Hb),
    <- app_assoc. reflexivity.
Qed.

(** X5.  When the answer to the market order carries no order id, the
    pipeline raises the exception of the failed subscript; the market
    order has been submitted all the same, and it is the last call of the
    run: no leg follows it. *)
Theorem order_id_missing_aborts (coin : string) (side : Side.t)
    (P B : Py.float) (tp sl : option Py.float) (w w1 : world G)
    (r : pyval) (g : G) (e : exn) :
  let payload :=
    market_order_payload (coin ++ "USDT") side (quantity_calculator B P) in
  get_balance session "USDT" w = (Ok B, w1) ->
  session HTTP_place_order payload (exchange w1) = (Ok r, g) ->
  subscripts r [Key "result"; Key "orderId"] = Raise e ->
  exists w',
    place_market_order_spot_to_usdt session coin side P tp sl w
      = (Raise e, w') /\
    submitted w' = submitted w
      ++ [wallet_call "USDT"; (HTTP_place_order, payload)] /\
    orders (submitted w') = orders (submitted w) ++ [payload].
Proof.
  intros payload Hb Hcall Hid.
  exists (World g (submitted w
                   ++ [wallet_call "USDT"; (HTTP_place_order, payload)])).
  split; [ | split ].
  - unfold place_market_order_spot_to_usdt. apply bind_raise.
    unfold _execute_market_order.
    rewrite (bind_ok _ _ _ _ _
               (calculate_order_qty_run (coin ++ "USDT") P B w w1 Hb)).
    unfold place_order. rewrite order_data_market.
    rewrite (bind_ok _ _ _ _ _ (session_call_answer _ _ _ _ _ Hcall)).
    unfold lift. rewrite Hid, (get_balance_submitted G session _ _ _ _ Hb),
      <- app_assoc. reflexivity.
  - reflexivity.
  - simpl submitted.
    change [wallet_call "USDT"; (HTTP_place_order, payload)]
      with ([wallet_call "USDT"] ++ [(HTTP_place_order, payload)]).
    rewrite app_assoc, orders_placed. unfold wallet_call.
    rewrite orders_query by discriminate. reflexivity.
Qed.

(** X6.  When the USDT balance cannot be read, whatever the reason, the
    pipeline raises the same exception after that single call: no order is
    placed. *)
Theorem balance_unreadable_aborts (coin : string) (side : Side.t)
    (P : Py.float) (tp sl : option Py.float) (w w' : world G) (e : exn) :
  get_balance session "USDT" w = (Raise e, w') ->
  place_market_order_spot_to_usdt session coin side P tp sl w
    = (Raise e, w') /\
  submitted w' = submitted w ++ [wallet_call "USDT"] /\
  orders (submitted w') = orders (submitted w).
Proof.
  intros H. split; [ | split ].
  - unfold place_market_order_spot_to_usdt, _execute_market_order,
      _calculate_order_qty.
    do 3 apply bind_raise. exact H.
  - exact (get_balance_submitted G session _ _ _ _ H).
  - rewrite (get_balance_submitted G session _ _ _ _ H). unfold wallet_call.
    apply orders_query. discriminate.
Qed.

(** X7.  [get_balance] reads the first coin of the first account of the
    wallet answer.  When the account list or the coin list is empty it
    raises [IndexError], and when the amount is the empty string it raises
    [ValueError]; nothing is returned in place of the balance. *)
Theorem get_balance_unreadable (coin : string) (w w' : world G) (r : pyval)
    (e : exn) :
  get_wallet_balance session AccountType.UNIFIED (VStr coin) w = (Ok r, w') ->
  no_balance r e ->
  get_balance session coin w = (Raise e, w').
Proof.
  intros Hcall Hno. unfold get_balance. rewrite (bind_ok _ _ _ _ _ Hcall).
  unfold lift. f_equal.
  destruct Hno as [ r H | r H | r H ].
  - change [Key "result"; Key "list"; Idx 0; Key "coin"; Idx 0;
            Key "availableToWithdraw"]
      with ([Key "result"; Key "list"]
            ++ [Idx 0; Key "coin"; Idx 0; Key "availableToWithdraw"]).
    rewrite subscripts_app, H. reflexivity.
  - change [Key "result"; Key "list"; Idx 0; Key "coin"; Idx 0;
            Key "availableToWithdraw"]
      with ([Key "result"; Key "list"; Idx 0; Key "coin"]
            ++ [Idx 0; Key "availableToWithdraw"]).
    rewrite subscripts_app, H. reflexivity.
  - rewrite H. reflexivity.
Qed.

(** X8.  The calls of a run that returns, in order: the USDT balance, the
    market order, the order query, the balance of the coin, the instrument
    query for the quantity precision, then for each leg that is requested
    a further instrument query followed by its order, the stop-loss leg
    first.  Nothing else is sent. *)
Theorem pipeline_call_sequence (coin : string) (side : Side.t)
    (P : Py.float) (tp sl : option Py.float) (w w' : world G) :
  place_market_order_spot_to_usdt session coin side P tp sl w = (Ok tt, w') ->
  exists (B avg qty : Py.float) (oid : pyval) (p_sl p_tp : nat),
    let symbol := (coin ++ "USDT")%string in
    submitted w' = submitted w
      ++ [wallet_call "USDT";
          (HTTP_place_order,
           market_order_payload symbol side (quantity_calculator B P));
          order_query_call oid;
          wallet_call coin;
          instruments_call symbol]
      ++ stop_loss_calls symbol avg qty sl p_sl
      ++ take_profit_calls symbol avg qty tp p_tp.
Proof.
  unfold place_market_order_spot_to_usdt. intros H.
  apply bind_inv_ok in H. destruct H as (oid & w1 & Hexec & H).
  apply bind_inv_ok in H. destruct H as (avg & w2 & Havg & H).
  apply bind_inv_ok in H. destruct H as (qty & w3 & Hqty & H).
  apply bind_inv_ok in H. destruct H as ([] & w4 & Hsl & Htp).
  apply execute_market_order_ok in Hexec. destruct Hexec as (B & E1).
  apply get_avg_price_submitted in Havg.
  apply formatted_balance_submitted in Hqty.
  apply stop_loss_step_calls in Hsl. destruct Hsl as (p_sl & E4).
  apply take_profit_step_calls in Htp. destruct Htp as (p_tp & E5).
  exists B, avg, qty, oid, p_sl, p_tp. cbv zeta.
  rewrite E5, E4, Hqty, Havg, E1.
  repeat rewrite <- app_assoc. reflexivity.
Qed.

(** X9.  The stop-loss step runs first and a failure in it ends the run:
    the pipeline raises the exception of the step, whatever take-profit
    percentage was passed, and the step has submitted the instrument
    query and at most the stop order; no take-profit order is sent. *)
Theorem stop_loss_failure_ends_run (coin : string) (side : Side.t)
    (P avg qty : Py.float) (tp sl : option Py.float) (oid : pyval) (e : exn)
    (w0 w1 w2 w3 w4 : world G) :
  let symbol := (coin ++ "USDT")%string in
  _execute_market_order session symbol side P w0 = (Ok oid, w1) ->
  _get_avg_price session Category.SPOT oid w1 = (Ok avg, w2) ->
  _get_formatted_balance session coin symbol w2 = (Ok qty, w3) ->
  if_percentage sl (_set_stop_loss session avg qty symbol) w3
    = (Raise e, w4) ->
  place_market_order_spot_to_usdt session coin side P tp sl w0
    = (Raise e, w4) /\
  exists pct,
    sl = Some pct /\ float_bool pct = true /\
    (submitted w4 = submitted w3 ++ [instruments_call symbol] \/
     exists p,
       submitted w4 = submitted w3
         ++ [instruments_call symbol;
             (HTTP_place_order,
              stop_sell_payload symbol qty (stop_loss_target avg pct p))]).
Proof.
  intros symbol Hexec Havg Hqty Hsl. split.
  - unfold place_market_order_spot_to_usdt. fold symbol.
    rewrite (bind_ok _ _ _ _ _ Hexec), (bind_ok _ _ _ _ _ Havg),
      (bind_ok _ _ _ _ _ Hqty).
    apply bind_raise. exact Hsl.
  - destruct (leg_requested sl) eqn:E.
    + destruct (if_percentage_run G sl
                  (_set_stop_loss session avg qty symbol) w3 E)
        as (pct & -> & Hrun).
      rewrite Hrun in Hsl. exists pct.
      split; [ reflexivity | ]. split; [ exact E | ].
      exact (set_stop_loss_raise _ _ _ _ _ _ _ Hsl).
    + rewrite (if_percentage_skip G _ _ _ E) in Hsl. discriminate Hsl.
Qed.

(** X10.  A failure of the take-profit step is raised to the caller, but
    the stop-loss order submitted before it is not withdrawn: the calls of
    the stop-loss step stay in the run, followed by the instrument query
    of the take-profit step and at most its limit order. *)
Theorem take_profit_failure_keeps_stop_loss (coin : string) (side : Side.t)
    (P avg qty : Py.float) (tp sl : option Py.float) (oid : pyval) (e : exn)
    (w0 w1 w2 w3 w4 w5 : world G) :
  let symbol := (coin ++ "USDT")%string in
  _execute_market_order session symbol side P w0 = (Ok oid, w1) ->
  _get_avg_price session Category.SPOT oid w1 = (Ok avg, w2) ->
  _get_formatted_balance session coin symbol w2 = (Ok qty, w3) ->
  if_percentage sl (_set_stop_loss session avg qty symbol) w3
    = (Ok tt, w4) ->
  if_percentage tp (_set_take_profit session avg qty symbol) w4
    = (Raise e, w5) ->
  place_market_order_spot_to_usdt session coin side P tp sl w0
    = (Raise e, w5) /\
  exists pct p_sl,
    tp = Some pct /\ float_bool pct = true /\
    (submitted w5 = submitted w3
       ++ stop_loss_calls symbol avg qty sl p_sl
       ++ [instruments_call symbol] \/
     exists p,
       submitted w5 = submitted w3
         ++ stop_loss_calls symbol avg qty sl p_sl
         ++ [instruments_call symbol;
             (HTTP_place_order,
              limit_sell_payload symbol qty
                (take_profit_target avg pct p))]).
Proof.
  intros symbol Hexec Havg Hqty Hsl Htp. split.
  - unfold place_market_order_spot_to_usdt. fold symbol.
    rewrite (bind_ok _ _ _ _ _ Hexec), (bind_ok _ _ _ _ _ Havg),
      (bind_ok _ _ _ _ _ Hqty), (bind_ok _ _ _ _ _ Hsl).
    exact Htp.
  - apply stop_loss_step_calls in Hsl. destruct Hsl as (p_sl & E4).
    destruct (leg_requested tp) eqn:E.
    + destruct (if_percentage_run G tp
                  (_set_take_profit session avg qty symbol) w4 E)
        as (pct & -> & Hrun).
      rewrite Hrun in Htp. exists pct, p_sl.
      split; [ reflexivity | ]. split; [ exact E | ].
      destruct (set_take_profit_raise _ _ _ _ _ _ _ Htp) as [H | (p & H)].
      * left. rewrite H, E4, <- app_assoc. reflexivity.
      * right. exists p. rewrite H, E4, <- app_assoc. reflexivity.
    + rewrite (if_percentage_skip G _ _ _ E) in Htp. discriminate Htp.
Qed.

End StepFacts.

(** ** A stop-loss of the whole price *)

Lemma full_stop_loss_is_zero (avg : Py.float) (p : nat) :
  Py.is_finite avg = true ->
  float_bool (stop_loss_target avg (Py.lit "100") p) = false.
Proof.
  intros H. unfold stop_loss_target.
  assert (E : Py.fsub f1 (SFdiv Py.prec Py.emax (Py.lit "100") f100)
              = S754_zero false) by (vm_compute; reflexivity).
  rewrite E. destruct avg; try discriminate H; reflexivity.
Qed.

Lemma stop_sell_payload_untriggered (symbol : string) (qty x : Py.float) :
  float_bool x = false ->
  stop_sell_payload symbol qty x = stop_sell_payload symbol qty Py.fzero.
Proof. unfold stop_sell_payload. intros ->. reflexivity. Qed.

Section StopFacts.
Variable G : Type.
Variable session : endpoint -> pydict -> G -> result pyval * G.

(** X11.  A stop-loss percentage of 100 on any finite average price
    gives a stop price of zero, which [place_order] leaves out: the
    stop-loss step submits a market sell with the stop-order filter and no
    trigger price at all. *)
Theorem stop_loss_at_100_percent_has_no_trigger (avg qty : Py.float)
    (symbol : string) (w w' : world G) :
  let payload := stop_sell_payload symbol qty Py.fzero in
  Py.is_finite avg = true ->
  _set_stop_loss session avg qty symbol (Py.lit "100") w = (Ok tt, w') ->
  submitted w' = submitted w
    ++ [instruments_call symbol; (HTTP_place_order, payload)] /\
  dict_get payload "triggerPrice" = None /\
  dict_get payload "price" = None /\
  dict_get payload "orderType" = Some (VStr "Market") /\
  dict_get payload "orderFilter" = Some (VStr "StopOrder") /\
  dict_get payload "side" = Some (VStr "Sell") /\
  dict_get payload "qty" = Some (VFloat qty).
Proof.
  intros payload Hfin H. split; [ | repeat split ].
  apply set_stop_loss_ok in H. destruct H as (p & w1 & Hp & Hsub).
  rewrite Hsub, (get_price_precision_submitted G session _ _ _ _ Hp),
    <- app_assoc.
  rewrite (stop_sell_payload_untriggered symbol qty _
             (full_stop_loss_is_zero avg p Hfin)).
  reflexivity.
Qed.

End StopFacts.

(** ** Counting decimal places *)

Lemma str_split_head (c : ascii) (s : string) :
  exists h t, str_split c s = h :: t /\ (String.length h <= String.length s)%nat.
Proof.
  induction s as [ | c' s (h & t & E & L) ]; simpl.
  - exists EmptyString, []. split; [ reflexivity | simpl; lia ].
  - destruct (Ascii.eqb c' c).
    + exists EmptyString, (str_split c s). split; [ reflexivity | simpl; lia ].
    + rewrite E. exists (String c' h), t.
      split; [ reflexivity | simpl; lia ].
Qed.

Lemma str_split_second (c : ascii) (s : string) :
  contains_char c s = true ->
  exists piece,
    nth_error (str_split c s) 1 = Some piece /\
    (S (String.length piece) <= String.length s)%nat.
Proof.
  induction s as [ | c' s IH ]; simpl; [ discriminate | ].
  destruct (Ascii.eqb c' c); simpl.
  - intros _. destruct (str_split_head c s) as (h & t & E & L).
    rewrite E. exists h. split; [ reflexivity | lia ].
  - intros H. destruct (IH H) as (piece & E & L).
    destruct (str_split c s) as [ | h t ]; [ discriminate E | ].
    exists piece. split; [ exact E | lia ].
Qed.

(** X12.  On every string [_count_decimal_places] returns: the subscript
    [[1]] after [split] cannot fail once the point is known to be there.
    The count is smaller than the length of a string that holds a point
    and is zero otherwise. *)
Theorem count_decimal_places_total (s : string) :
  exists n : nat,
    _count_decimal_places (VStr s) = Ok n /\
    (if contains_char "." s then (n < String.length s)%nat else n = 0%nat).
Proof.
  unfold _count_decimal_places. destruct (contains_char "." s) eqn:E.
  - destruct (str_split_second "." s E) as (piece & -> & L).
    exists (String.length piece). split; [ reflexivity | lia ].
  - exists 0%nat. split; reflexivity.
Qed.

(** X13.  When the string holds more than one point, only the characters
    between the first point and the second are counted. *)
Theorem count_decimal_places_two_points (a b c : string) :
  contains_char "." a = false -> contains_char "." b = false ->
  _count_decimal_places (VStr (a ++ "." ++ b ++ "." ++ c))
    = Ok (String.length b).
Proof.
  intros Ha Hb. unfold _count_decimal_places.
  change (a ++ "." ++ b ++ "." ++ c)%string
    with (a ++ String "." (b ++ String "." c))%string.
  rewrite contains_char_sep, (str_split_at_sep _ _ _ Ha),
    (str_split_at_sep _ _ _ Hb).
  reflexivity.
Qed.

Lemma count_decimal_places_two_points_witness :
  contains_char "." "1" = false /\
  _count_decimal_places (VStr "1.25.125") = Ok 2%nat.
Proof.
  split; [ reflexivity | ].
  exact (count_decimal_places_two_points "1" "25" "125" eq_refl eq_refl).
Defined.

(** ** Rounding down a quantity *)

Lemma float_of_int_nonneg (n : Z) (y : Py.float) :
  0 <= n -> Py.float_of_int n = Ok y ->
  nonneg y /\ Py.is_finite y = true.
Proof.
  intros Hn. unfold Py.float_of_int. destruct n as [ | q | q ]; [ | | lia ].
  - intros H. injection H as <-. split; reflexivity.
  - pose proof (nearest_ratio_sign false q 1) as Hs.
    destruct (Py.nearest_ratio false q 1) as [ s | s | | s m e ];
      intros H; try discriminate H; try contradiction;
      injection H as <-; subst s; split; reflexivity.
Qed.

Lemma math_floor_nonneg (x : Py.float) (n : Z) :
  nonneg x -> Py.math_floor x = Ok n -> 0 <= n.
Proof.
  intros Hx. apply nonneg_cases in Hx.
  destruct x as [ s | s | | s m e ]; simpl; intros H;
    try discriminate H; injection H as <-; [ lia | ].
  subst s. apply Z.shiftl_nonneg. simpl. lia.
Qed.

Lemma int_truediv_nonneg (a b : Z) (r : Py.float) :
  0 <= a -> 0 < b -> Py.int_truediv a b = Ok r ->
  nonneg r /\ Py.is_finite r = true.
Proof.
  intros Ha Hb. unfold Py.int_truediv.
  destruct b as [ | pb | pb ]; try lia.
  replace (a <? 0) with false by (symmetry; apply Z.ltb_ge; lia).
  change (Z.pos pb <? 0) with false. change (xorb false false) with false.
  destruct a as [ | pa | pa ]; [ | | lia ]; cbn [Z.abs].
  - intros H. injection H as <-. split; reflexivity.
  - pose proof (nearest_ratio_sign false pa (Z.to_pos (Z.pos pb))) as Hs.
    destruct (Py.nearest_ratio false pa (Z.to_pos (Z.pos pb)))
      as [ s | s | | s m e ];
      intros H; try discriminate H; try contradiction;
      injection H as <-; subst s; split; reflexivity.
Qed.

(** X14.  Whenever [_round_to_precision] returns on a finite value that
    is not negative, the result is a finite number that is not negative
    either: the formatted quantity is never negative, infinite or NaN. *)
Theorem round_to_precision_nonneg (value r : Py.float) (precision : nat) :
  Py.is_finite value = true -> nonneg value ->
  _round_to_precision value precision = Ok r ->
  nonneg r /\ Py.is_finite r = true.
Proof.
  intros Hfin Hnn. unfold _round_to_precision, float_mul_int.
  assert (Hf : 0 < 10 ^ Z.of_nat precision) by (apply Z.pow_pos_nonneg; lia).
  destruct (Py.float_of_int (10 ^ Z.of_nat precision)) as [ e | y ] eqn:Ey;
    [ discriminate | ].
  destruct (float_of_int_nonneg _ y (Z.lt_le_incl _ _ Hf) Ey) as [Hy Fy].
  cbn [rbind]. unfold Ok at 1. cbn [rbind].
  pose proof (fmul_nonneg value y Hfin Fy Hnn Hy) as Hs.
  destruct (Py.math_floor (Py.fmul value y)) as [ e | n ] eqn:En;
    [ discriminate | ].
  cbn [rbind].
  apply int_truediv_nonneg; [ | exact Hf ].
  exact (math_floor_nonneg _ _ Hs En).
Qed.

Lemma round_to_precision_nonneg_witness :
  nonneg (Py.lit "0.29") /\
  _round_to_precision (Py.lit "0.29") 2 = Ok (Py.lit "0.28") /\
  nonneg (Py.lit "0.28").
Proof.
  split; [ reflexivity | ]. split; [ vm_compute; reflexivity | ].
  refine (proj1 (round_to_precision_nonneg (Py.lit "0.29") (Py.lit "0.28") 2
                   _ _ _)); vm_compute; reflexivity.
Defined.

(** ** The queries and the trading stop *)

Lemma category_value_true (c : Category.t) :
  truthy (VStr (Category.value c)) = true.
Proof. destruct c; reflexivity. Qed.

Ltac split_lookup H k :=
  repeat match type of H with
         | context [String.eqb ?a k] =>
             let E := fresh "E" in
             destruct (String.eqb a k) eqn:E;
             [ apply String.eqb_eq in E; subst k | ]
         end;
  cbn [dict_get String.eqb Ascii.eqb Bool.eqb] in H.

(** X15.  The query methods send no empty parameter: every value among
    the keyword arguments of [get_tickers] and of [get_instruments_info]
    is true, the category is always there, and the only other keys are
    those of the arguments that were passed and are not empty. *)
Theorem query_params_hold_no_empty_value (c : Category.t)
    (symbol status base_coin exp_date limit cursor : pyval) :
  let tickers := get_tickers_params c symbol base_coin exp_date in
  let instruments :=
    get_instruments_info_params c symbol status base_coin limit cursor in
  dict_get tickers "category" = Some (VStr (Category.value c)) /\
  dict_get instruments "category" = Some (VStr (Category.value c)) /\
  (forall k v, dict_get tickers k = Some v ->
     truthy v = true /\ In k ["category"; "symbol"; "baseCoin"; "expDate"]) /\
  (forall k v, dict_get instruments k = Some v ->
     truthy v = true /\
     In k ["category"; "limit"; "symbol"; "status"; "baseCoin"; "cursor"]).
Proof.
  cbv zeta. split; [ | split; [ | split ] ].
  - unfold get_tickers_params. cbv zeta. dict_lookup. reflexivity.
  - unfold get_instruments_info_params. cbv zeta. dict_lookup. reflexivity.
  - intros k v H. unfold get_tickers_params in H. cbv zeta in H.
    rewrite !dict_get_set_if in H. cbn [dict_get] in H.
    pose proof (category_value_true c) as Hc.
    destruct (truthy symbol) eqn:T1, (truthy base_coin) eqn:T2,
      (truthy exp_date) eqn:T3;
      split_lookup H k; try discriminate H; injection H as <-;
      (split; [ assumption | simpl; tauto ]).
  - intros k v H. unfold get_instruments_info_params in H. cbv zeta in H.
    rewrite !dict_get_set_if in H. cbn [dict_get] in H.
    pose proof (category_value_true c) as Hc.
    destruct (truthy symbol) eqn:T1, (truthy status) eqn:T2,
      (truthy base_coin) eqn:T3, (truthy limit) eqn:T4,
      (truthy cursor) eqn:T5;
      split_lookup H k; try discriminate H; injection H as <-;
      (split; [ assumption | simpl; tauto ]).
Qed.

(** X16.  The payload of [set_trading_stop]: the category, the symbol,
    the mode and the position index are always sent; the take-profit,
    stop-loss and trailing-stop prices are sent whenever they are not
    [None], a zero or an empty string included; the order types, which
    default to [Market], are sent unless the caller passes [None]; the
    remaining arguments are sent only when they are true. *)
Theorem trading_stop_data_fields (a : SetTradingStop.args) :
  let d := SetTradingStop.order_data a in
  dict_get d "category"
    = Some (VStr (Category.value (SetTradingStop.category a)))
  /\ dict_get d "symbol" = Some (VStr (SetTradingStop.symbol a))
  /\ dict_get d "tpslMode"
    = Some (VStr (TP_SL_Mode.value (SetTradingStop.tpsl_mode a)))
  /\ dict_get d "positionIdx" = Some (VInt (SetTradingStop.position_idx a))
  /\ dict_get d "takeProfit"
    = (if is_not_None (SetTradingStop.take_profit a)
       then Some (SetTradingStop.take_profit a) else None)
  /\ dict_get d "stopLoss"
    = (if is_not_None (SetTradingStop.stop_loss a)
       then Some (SetTradingStop.stop_loss a) else None)
  /\ dict_get d "trailingStop"
    = (if is_not_None (SetTradingStop.trailing_stop a)
       then Some (SetTradingStop.trailing_stop a) else None)
  /\ dict_get d "tpTriggerBy"
    = option_map (fun x => VStr (TriggerBy.value x))
        (SetTradingStop.tp_trigger_by a)
  /\ dict_get d "slTriggerBy"
    = option_map (fun x => VStr (TriggerBy.value x))
        (SetTradingStop.sl_trigger_by a)
  /\ dict_get d "activePrice"
    = (if truthy (SetTradingStop.active_price a)
       then Some (SetTradingStop.active_price a) else None)
  /\ dict_get d "tpSize"
    = (if truthy (SetTradingStop.tp_size a)
       then Some (SetTradingStop.tp_size a) else None)
  /\ dict_get d "slSize"
    = (if truthy (SetTradingStop.sl_size a)
       then Some (SetTradingStop.sl_size a) else None)
  /\ dict_get d "tpLimitPrice"
    = (if truthy (SetTradingStop.tp_limit_price a)
       then Some (SetTradingStop.tp_limit_price a) else None)
  /\ dict_get d "slLimitPrice"
    = (if truthy (SetTradingStop.sl_limit_price a)
       then Some (SetTradingStop.sl_limit_price a) else None)
  /\ dict_get d "tpOrderType"
    = option_map (fun x => VStr (TP_SL_OrderType.value x))
        (SetTradingStop.tp_order_type a)
  /\ dict_get d "slOrderType"
    = option_map (fun x => VStr (TP_SL_OrderType.value x))
        (SetTradingStop.sl_order_type a).
Proof.
  unfold SetTradingStop.order_data. cbv zeta.
  repeat split; dict_lookup;
    repeat match goal with
           | |- context [match ?x with Some _ => _ | None => _ end] =>
               destruct x
           end; reflexivity.
Qed.

(** X17.  The two methods disagree on a take-profit or stop-loss price
    that is not [None] and yet false, such as a zero: [place_order] leaves
    it out of the payload, [set_trading_stop] sends it. *)
Theorem false_price_sent_by_trading_stop_only (a : order_args)
    (b : SetTradingStop.args) (tp sl : pyval) :
  is_not_None tp = true -> truthy tp = false ->
  is_not_None sl = true -> truthy sl = false ->
  take_profit a = tp -> SetTradingStop.take_profit b = tp ->
  stop_loss a = sl -> SetTradingStop.stop_loss b = sl ->
  dict_get (order_data a) "takeProfit" = None /\
  dict_get (order_data a) "stopLoss" = None /\
  dict_get (SetTradingStop.order_data b) "takeProfit" = Some tp /\
  dict_get (SetTradingStop.order_data b) "stopLoss" = Some sl.
Proof.
  intros Ntp Ttp Nsl Tsl Ea Eb Fa Fb.
  unfold order_data, SetTradingStop.order_data. cbv zeta.
  repeat split; dict_lookup;
    rewrite ?Ea, ?Eb, ?Fa, ?Fb, ?Ntp, ?Ttp, ?Nsl, ?Tsl;
    repeat match goal with
           | |- context [match ?x with Some _ => _ | None => _ end] =>
               destruct x
           end; reflexivity.
Qed.

Lemma false_price_sent_by_trading_stop_only_witness :
  truthy (VInt 0) = false /\
  dict_get
    (SetTradingStop.order_data
       (SetTradingStop.with_prices (VInt 0) (VFloat Py.fzero)
          (SetTradingStop.defaults Category.LINEAR "BTCUSDT")))
    "takeProfit" = Some (VInt 0).
Proof.
  split; [ reflexivity | ].
  exact (proj1 (proj2 (proj2
    (false_price_sent_by_trading_stop_only
       (with_take_profit (VInt 0)
          (with_stop_loss (VFloat Py.fzero)
             (order_defaults Category.LINEAR "BTCUSDT" Side.SELL
                OrderType.LIMIT (VStr "1"))))
       (SetTradingStop.with_prices (VInt 0) (VFloat Py.fzero)
          (SetTradingStop.defaults Category.LINEAR "BTCUSDT"))
       (VInt 0) (VFloat Py.fzero)
       eq_refl eq_refl eq_refl eq_refl eq_refl eq_refl eq_refl eq_refl)))).
Defined.

(** ** The further properties on scripted exchanges *)

(** X4 on the scripted exchange: 1000 USDT and 10 percent. *)
Lemma execute_market_order_spec_witness :
  fst (get_balance (Demo.exchange_of Demo.btc) "USDT" Demo.start)
    = Ok (Py.lit "1000") /\
  fst (_execute_market_order (Demo.exchange_of Demo.btc) "BTCUSDT" Side.BUY
         (Py.lit "10") Demo.start) = Ok (VStr "1").
Proof.
  split; [ vm_compute; reflexivity | ].
  edestruct (execute_market_order_spec unit (Demo.exchange_of Demo.btc)
               "BTCUSDT" Side.BUY (Py.lit "10") (Py.lit "1000") Demo.start)
    as (Hrun & _); [ cbv; reflexivity | cbv; reflexivity | ].
  rewrite Hrun. reflexivity.
Defined.

(** X5 on an exchange whose answer to the order carries no id. *)
Lemma order_id_missing_aborts_witness :
  let answers := [Replay.wallet "1000"; Replay.rejected] in
  let run :=
    place_market_order_spot_to_usdt Replay.exchange "BTC" Side.BUY
      (Py.lit "10") (Some (Py.lit "10")) (Some (Py.lit "10"))
      (Replay.start answers) in
  fst run = Raise KeyError /\ List.length (orders (submitted (snd run))) = 1%nat.
Proof.
  cbv zeta.
  edestruct (order_id_missing_aborts (list (result pyval)) Replay.exchange
               "BTC" Side.BUY (Py.lit "10") (Py.lit "1000")
               (Some (Py.lit "10")) (Some (Py.lit "10"))
               (Replay.start [Replay.wallet "1000"; Replay.rejected]))
    as (w' & Hrun & _ & Hord);
    [ cbv; reflexivity | cbv; reflexivity | cbv; reflexivity | ].
  rewrite Hrun. split; [ reflexivity | ].
  simpl snd. rewrite Hord. reflexivity.
Defined.

(** X6 on an exchange that cannot be reached. *)
Lemma balance_unreadable_aborts_witness :
  let run :=
    place_market_order_spot_to_usdt Replay.exchange "BTC" Side.BUY
      (Py.lit "10") (Some (Py.lit "10")) (Some (Py.lit "10"))
      (Replay.start []) in
  fst run = Raise (GatewayError "ConnectionError") /\
  orders (submitted (snd run)) = [].
Proof.
  cbv zeta.
  edestruct (balance_unreadable_aborts (list (result pyval)) Replay.exchange
               "BTC" Side.BUY (Py.lit "10") (Some (Py.lit "10"))
               (Some (Py.lit "10")) (Replay.start []))
    as (Hrun & _ & Hord); [ cbv; reflexivity | ].
  rewrite Hrun. split; [ reflexivity | exact Hord ].
Defined.

(** X7 on a wallet answer that lists no account. *)
Lemma get_balance_unreadable_witness :
  no_balance (Demo.listing []) IndexError /\
  fst (get_balance Replay.exchange "BTC" (Replay.start [Replay.unlisted]))
    = Raise IndexError.
Proof.
  split; [ apply no_account; reflexivity | ].
  rewrite (get_balance_unreadable (list (result pyval)) Replay.exchange "BTC"
             (Replay.start [Replay.unlisted])
             (World [] [wallet_call "BTC"]) (Demo.listing []) IndexError
             eq_refl (no_account (Demo.listing []) eq_refl)).
  reflexivity.
Defined.

(** X8 on the scripted exchange with both legs: nine calls. *)
Lemma pipeline_call_sequence_witness :
  let run :=
    place_market_order_spot_to_usdt (Demo.exchange_of Demo.btc) "BTC"
      Side.BUY (Py.lit "10") (Some (Py.lit "10")) (Some (Py.lit "10"))
      Demo.start in
  fst run = Ok tt /\ List.length (submitted (snd run)) = 9%nat.
Proof.
  cbv zeta. split; [ vm_compute; reflexivity | ].
  edestruct (pipeline_call_sequence unit (Demo.exchange_of Demo.btc) "BTC"
               Side.BUY (Py.lit "10") (Some (Py.lit "10"))
               (Some (Py.lit "10")) Demo.start)
    as (B & avg & qty & oid & p_sl & p_tp & H); [ cbv; reflexivity | ].
  exact (f_equal (@List.length call) H).
Defined.

(** X9 on an exchange that stops listing the symbol before the stop-loss
    price is computed. *)
Lemma stop_loss_failure_ends_run_witness :
  let answers :=
    [ Replay.wallet "1000"; Replay.accepted; Replay.filled "100";
      Replay.wallet "0.0023"; Replay.instrument "0.0001" "0.01";
      Replay.unlisted ] in
  let run :=
    place_market_order_spot_to_usdt Replay.exchange "BTC" Side.BUY
      (Py.lit "10") (Some (Py.lit "10")) (Some (Py.lit "10"))
      (Replay.start answers) in
  fst run = Raise IndexError /\ sell_orders (submitted (snd run)) = [].
Proof.
  cbv zeta.
  edestruct (stop_loss_failure_ends_run (list (result pyval)) Replay.exchange
               "BTC" Side.BUY (Py.lit "10") (Py.lit "100") (Py.lit "0.0023")
               (Some (Py.lit "10")) (Some (Py.lit "10")) (VStr "1")
               IndexError
               (Replay.start
                  [ Replay.wallet "1000"; Replay.accepted;
                    Replay.filled "100"; Replay.wallet "0.0023";
                    Replay.instrument "0.0001" "0.01"; Replay.unlisted ]))
    as (Hrun & _);
    [ cbv; reflexivity | cbv; reflexivity | cbv; reflexivity
    | cbv; reflexivity | ].
  rewrite Hrun. split; reflexivity.
Defined.

(** X10 on an exchange that refuses the limit order. *)
Lemma take_profit_failure_keeps_stop_loss_witness :
  let answers :=
    [ Replay.wallet "1000"; Replay.accepted; Replay.filled "100";
      Replay.wallet "0.0023"; Replay.instrument "0.0001" "0.01";
      Replay.instrument "0.0001" "0.01"; Replay.accepted;
      Replay.instrument "0.0001" "0.01";
      Raise (GatewayError "InvalidRequestError") ] in
  let run :=
    place_market_order_spot_to_usdt Replay.exchange "BTC" Side.BUY
      (Py.lit "10") (Some (Py.lit "10")) (Some (Py.lit "10"))
      (Replay.start answers) in
  fst run = Raise (GatewayError "InvalidRequestError") /\
  List.length (sell_orders (submitted (snd run))) = 2%nat.
Proof.
  cbv zeta.
  edestruct (take_profit_failure_keeps_stop_loss (list (result pyval))
               Replay.exchange
               "BTC" Side.BUY (Py.lit "10") (Py.lit "100") (Py.lit "0.0023")
               (Some (Py.lit "10")) (Some (Py.lit "10")) (VStr "1")
               (GatewayError "InvalidRequestError")
               (Replay.start
                  [ Replay.wallet "1000"; Replay.accepted;
                    Replay.filled "100"; Replay.wallet "0.0023";
                    Replay.instrument "0.0001" "0.01";
                    Replay.instrument "0.0001" "0.01"; Replay.accepted;
                    Replay.instrument "0.0001" "0.01";
                    Raise (GatewayError "InvalidRequestError") ]))
    as (Hrun & _);
    [ cbv; reflexivity | cbv; reflexivity | cbv; reflexivity
    | cbv; reflexivity | cbv; reflexivity | ].
  rewrite Hrun. split; reflexivity.
Defined.

(** X11 on the scripted exchange, at an average price of 100. *)
Lemma stop_loss_at_100_percent_has_no_trigger_witness :
  Py.is_finite (Py.lit "100") = true /\
  orders (submitted (snd
    (_set_stop_loss (Demo.exchange_of Demo.btc) (Py.lit "100")
       (Py.lit "0.0023") "BTCUSDT" (Py.lit "100") Demo.start)))
  = [stop_sell_payload "BTCUSDT" (Py.lit "0.0023") Py.fzero].
Proof.
  split; [ reflexivity | ].
  edestruct (stop_loss_at_100_percent_has_no_trigger unit
               (Demo.exchange_of Demo.btc) (Py.lit "100") (Py.lit "0.0023")
               "BTCUSDT" Demo.start) as (Hrun & _);
    [ reflexivity | cbv; reflexivity | ].
  exact (f_equal orders Hrun).
Defined.

(** ** The side of the legs and a percentage of zero *)

Lemma orders_stop_loss_calls (symbol : string) (avg qty : Py.float)
    (sl : option Py.float) (p : nat) :
  exists legs,
    orders (stop_loss_calls symbol avg qty sl p) = legs /\
    Forall (fun leg => dict_get leg "side" = Some (VStr "Sell")) legs /\
    List.length legs = (if leg_requested sl then 1 else 0)%nat.
Proof.
  unfold stop_loss_calls. destruct (leg_requested sl) eqn:E.
  - destruct sl as [ pct | ]; [ | discriminate E ].
    eexists. split; [ reflexivity | ]. split; [ | reflexivity ].
    constructor; [ | constructor ].
    unfold stop_sell_payload. destruct (float_bool _); reflexivity.
  - exists []. split; [ reflexivity | ]. split; [ constructor | reflexivity ].
Qed.

Lemma orders_take_profit_calls (symbol : string) (avg qty : Py.float)
    (tp : option Py.float) (p : nat) :
  exists legs,
    orders (take_profit_calls symbol avg qty tp p) = legs /\
    Forall (fun leg => dict_get leg "side" = Some (VStr "Sell")) legs /\
    List.length legs = (if leg_requested tp then 1 else 0)%nat.
Proof.
  unfold take_profit_calls. destruct (leg_requested tp) eqn:E.
  - destruct tp as [ pct | ]; [ | discriminate E ].
    eexists. split; [ reflexivity | ]. split; [ | reflexivity ].
    constructor; [ reflexivity | constructor ].
  - exists []. split; [ reflexivity | ]. split; [ constructor | reflexivity ].
Qed.

Lemma zero_share_quantity (B : Py.float) :
  Py.is_finite B = true ->
  float_bool (quantity_calculator B Py.fzero) = false.
Proof.
  intros H. unfold quantity_calculator.
  assert (E : SFdiv Py.prec Py.emax Py.fzero f100 = S754_zero false)
    by (vm_compute; reflexivity).
  rewrite E. destruct B; try discriminate H; reflexivity.
Qed.

Section SideFacts.
Variable G : Type.
Variable session : endpoint -> pydict -> G -> result pyval * G.

(** X18.  Whatever the side of the market order, the legs are sell
    orders: the orders of a run that returns are the market order on the
    given side followed by one sell order for each leg requested. *)
Theorem legs_always_sell (coin : string) (side : Side.t) (P : Py.float)
    (tp sl : option Py.float) (w w' : world G) :
  place_market_order_spot_to_usdt session coin side P tp sl w = (Ok tt, w') ->
  exists (B : Py.float) (legs : list pydict),
    let market :=
      market_order_payload (coin ++ "USDT") side (quantity_calculator B P) in
    orders (submitted w') = orders (submitted w) ++ market :: legs /\
    dict_get market "side" = Some (VStr (Side.value side)) /\
    Forall (fun leg => dict_get leg "side" = Some (VStr "Sell")) legs /\
    List.length legs
      = ((if leg_requested sl then 1 else 0)
         + (if leg_requested tp then 1 else 0))%nat.
Proof.
  unfold place_market_order_spot_to_usdt. intros H.
  apply bind_inv_ok in H. destruct H as (oid & w1 & Hexec & H).
  apply bind_inv_ok in H. destruct H as (avg & w2 & Havg & H).
  apply bind_inv_ok in H. destruct H as (qty & w3 & Hqty & H).
  apply bind_inv_ok in H. destruct H as ([] & w4 & Hsl & Htp).
  apply execute_market_order_ok in Hexec. destruct Hexec as (B & E1).
  apply get_avg_price_submitted in Havg.
  apply formatted_balance_submitted in Hqty.
  apply stop_loss_step_calls in Hsl. destruct Hsl as (p_sl & E4).
  apply take_profit_step_calls in Htp. destruct Htp as (p_tp & E5).
  destruct (orders_stop_loss_calls (coin ++ "USDT") avg qty sl p_sl)
    as (l1 & E1' & F1 & L1).
  destruct (orders_take_profit_calls (coin ++ "USDT") avg qty tp p_tp)
    as (l2 & E2' & F2 & L2).
  exists B, (l1 ++ l2). cbv zeta. split; [ | split; [ | split ] ].
  - rewrite E5, E4, Hqty, Havg, E1, !orders_app, E1', E2'.
    unfold orders, wallet_call, order_query_call, instruments_call. simpl.
    rewrite ?app_nil_r. repeat rewrite <- app_assoc. reflexivity.
  - reflexivity.
  - apply Forall_app. split; assumption.
  - rewrite length_app, L1, L2. reflexivity.
Qed.

(** X19.  A percentage of zero is not refused: with any finite balance
    the quantity is zero and the market order is submitted with it. *)
Theorem zero_percent_still_orders (symbol : string) (side : Side.t)
    (B : Py.float) (w w1 : world G) (r : pyval) (g : G) :
  let payload :=
    market_order_payload symbol side (quantity_calculator B Py.fzero) in
  Py.is_finite B = true ->
  get_balance session "USDT" w = (Ok B, w1) ->
  session HTTP_place_order payload (exchange w1) = (Ok r, g) ->
  float_bool (quantity_calculator B Py.fzero) = false /\
  exists w',
    _execute_market_order session symbol side Py.fzero w
      = (subscripts r [Key "result"; Key "orderId"], w') /\
    orders (submitted w') = orders (submitted w) ++ [payload].
Proof.
  intros payload Hfin Hb Hcall. split; [ exact (zero_share_quantity B Hfin) | ].
  eexists. split.
  - unfold _execute_market_order.
    rewrite (bind_ok _ _ _ _ _
               (calculate_order_qty_run G session symbol Py.fzero B w w1 Hb)).
    unfold place_order. rewrite order_data_market.
    rewrite (bind_ok _ _ _ _ _
               (session_call_answer G session _ _ _ _ _ Hcall)).
    reflexivity.
  - simpl submitted. rewrite orders_placed.
    rewrite (get_balance_submitted G session _ _ _ _ Hb). unfold wallet_call.
    rewrite orders_query by discriminate. reflexivity.
Qed.

End SideFacts.

(** X18 on the scripted exchange, with a market order on the sell side. *)
Lemma legs_always_sell_witness :
  let run :=
    place_market_order_spot_to_usdt (Demo.exchange_of Demo.btc) "BTC"
      Side.SELL (Py.lit "10") (Some (Py.lit "10")) (Some (Py.lit "10"))
      Demo.start in
  fst run = Ok tt /\ List.length (orders (submitted (snd run))) = 3%nat.
Proof.
  cbv zeta. split; [ vm_compute; reflexivity | ].
  edestruct (legs_always_sell unit (Demo.exchange_of Demo.btc) "BTC"
               Side.SELL (Py.lit "10") (Some (Py.lit "10"))
               (Some (Py.lit "10")) Demo.start)
    as (B & legs & H & _ & _ & L); [ cbv; reflexivity | ].
  apply (f_equal (@List.length pydict)) in H.
  rewrite length_app in H. simpl List.length in H. rewrite L in H.
  exact H.
Defined.

(** X19 on the scripted exchange. *)
Lemma zero_percent_still_orders_witness :
  Py.is_finite (Py.lit "1000") = true /\
  fst (_execute_market_order (Demo.exchange_of Demo.btc) "BTCUSDT" Side.BUY
         Py.fzero Demo.start) = Ok (VStr "1").
Proof.
  split; [ reflexivity | ].
  edestruct (zero_percent_still_orders unit (Demo.exchange_of Demo.btc)
               "BTCUSDT" Side.BUY (Py.lit "1000") Demo.start)
    as (_ & w' & Hrun & _);
    [ reflexivity | cbv; reflexivity | cbv; reflexivity | ].
  rewrite Hrun. reflexivity.
Defined.

(** ** The two steps in sequence *)

Section LegOrderFacts.
Variable G : Type.
Variable session : endpoint -> pydict -> G -> result pyval * G.

Lemma stop_loss_raise_orders (avg qty : Py.float) (symbol : string)
    (sl : option Py.float) (e : exn) (w w' : world G) :
  if_percentage sl (_set_stop_loss session avg qty symbol) w = (Raise e, w') ->
  exists pct,
    sl = Some pct /\ float_bool pct = true /\
    (orders (submitted w') = orders (submitted w) \/
     exists p,
       orders (submitted w') = orders (submitted w)
         ++ [stop_sell_payload symbol qty (stop_loss_target avg pct p)]).
Proof.
  intros H. destruct (leg_requested sl) eqn:E.
  - destruct (if_percentage_run G sl (_set_stop_loss session avg qty symbol)
                w E) as (pct & -> & Hrun).
    rewrite Hrun in H. exists pct. split; [ reflexivity | ].
    split; [ exact E | ].
    destruct (set_stop_loss_raise G session _ _ _ _ _ _ _ H) as [S | (p & S)].
    + left. rewrite S. unfold instruments_call. apply orders_query.
      discriminate.
    + right. exists p. rewrite S.
      change [instruments_call symbol;
              (HTTP_place_order,
               stop_sell_payload symbol qty (stop_loss_target avg pct p))]
        with ([instruments_call symbol]
              ++ [(HTTP_place_order,
                   stop_sell_payload symbol qty
                     (stop_loss_target avg pct p))]).
      rewrite app_assoc. apply (leg_orders _ _ symbol). reflexivity.
  - rewrite (if_percentage_skip G _ _ _ E) in H. discriminate H.
Qed.

(** Claim C7.  Once the market order, the average price and the quantity
    are there, the pipeline is its two steps in sequence, the stop-loss
    step first.  A step whose percentage is absent or zero returns at once
    and leaves the exchange untouched.  A step whose percentage is
    supplied and not zero is attempted: when it returns it has placed
    exactly one order, its leg.  When the stop-loss step raises, the
    pipeline raises the same exception, the take-profit step is not
    attempted and no limit order is placed; otherwise the outcome of the
    pipeline is the outcome of the take-profit step. *)
Theorem legs_follow_percentages (coin : string) (side : Side.t)
    (pct avg qty : Py.float) (tp sl : option Py.float) (oid : pyval)
    (w0 w1 w2 w3 : world G) :
  let symbol := (coin ++ "USDT")%string in
  let sl_step := if_percentage sl (_set_stop_loss session avg qty symbol) in
  let tp_step := if_percentage tp (_set_take_profit session avg qty symbol) in
  let run := place_market_order_spot_to_usdt session coin side pct tp sl w0 in
  _execute_market_order session symbol side pct w0 = (Ok oid, w1) ->
  _get_avg_price session Category.SPOT oid w1 = (Ok avg, w2) ->
  _get_formatted_balance session coin symbol w2 = (Ok qty, w3) ->
  (leg_requested sl = false -> sl_step w3 = (Ok tt, w3)) /\
  (forall w4, leg_requested tp = false -> tp_step w4 = (Ok tt, w4)) /\
  (forall e w4, sl_step w3 = (Raise e, w4) ->
     run = (Raise e, w4) /\
     exists s,
       sl = Some s /\ float_bool s = true /\
       (orders (submitted w4) = orders (submitted w3) \/
        exists p,
          orders (submitted w4) = orders (submitted w3)
            ++ [stop_sell_payload symbol qty (stop_loss_target avg s p)])) /\
  (forall w4, sl_step w3 = (Ok tt, w4) ->
     run = tp_step w4 /\
     (leg_requested sl = false -> w4 = w3) /\
     (leg_requested sl = true ->
      exists s p,
        sl = Some s /\
        orders (submitted w4) = orders (submitted w3)
          ++ [stop_sell_payload symbol qty (stop_loss_target avg s p)]) /\
     List.length (orders (submitted w4))
       = (List.length (orders (submitted w3))
          + (if leg_requested sl then 1 else 0))%nat /\
     forall w5, tp_step w4 = (Ok tt, w5) ->
       run = (Ok tt, w5) /\
       (leg_requested tp = false -> w5 = w4) /\
       (leg_requested tp = true ->
        exists t p,
          tp = Some t /\
          orders (submitted w5) = orders (submitted w4)
            ++ [limit_sell_payload symbol qty (take_profit_target avg t p)]) /\
       List.length (orders (submitted w5))
         = (List.length (orders (submitted w4))
            + (if leg_requested tp then 1 else 0))%nat).
Proof.
  intros symbol sl_step tp_step run Hexec Havg Hqty.
  assert (Hrun : forall r w4, sl_step w3 = (r, w4) ->
            run = match r with
                  | inl e => (Raise e, w4)
                  | inr _ => tp_step w4
                  end).
  { intros r w4 Hsl. unfold run, place_market_order_spot_to_usdt.
    fold symbol.
    rewrite (bind_ok _ _ _ _ _ Hexec), (bind_ok _ _ _ _ _ Havg),
      (bind_ok _ _ _ _ _ Hqty).
    unfold sl_step in Hsl. destruct r as [ e | [] ].
    - apply bind_raise. exact Hsl.
    - exact (bind_ok _ _ _ _ _ Hsl). }
  split; [ | split; [ | split ] ].
  - intros E. apply if_percentage_skip. exact E.
  - intros w4 E. apply if_percentage_skip. exact E.
  - intros e w4 Hsl. split; [ exact (Hrun _ _ Hsl) | ].
    exact (stop_loss_raise_orders _ _ _ _ _ _ _ Hsl).
  - intros w4 Hsl. split; [ exact (Hrun _ _ Hsl) | ].
    destruct (stop_loss_leg_orders G session _ _ _ _ _ _ Hsl)
      as [[E ->] | (s & p & -> & E & Ho)].
    + split; [ reflexivity | ].
      split; [ intros E'; congruence | ].
      split; [ rewrite E; lia | ].
      intros w5 Htp. split; [ rewrite (Hrun _ _ Hsl); exact Htp | ].
      destruct (take_profit_leg_orders G session _ _ _ _ _ _ Htp)
        as [[E' ->] | (t & p & -> & E' & Ho')].
      * split; [ reflexivity | ]. split; [ intros E''; congruence | ].
        rewrite E'. lia.
      * simpl leg_requested. rewrite E'.
        split; [ intros E''; discriminate E'' | ].
        split; [ intros _; exists t, p; split; [ reflexivity | exact Ho' ] | ].
        rewrite Ho', length_app. reflexivity.
    + simpl leg_requested. rewrite E.
      split; [ intros E'; discriminate E' | ].
      split; [ intros _; exists s, p; split; [ reflexivity | exact Ho ] | ].
      split; [ rewrite Ho, length_app; reflexivity | ].
      intros w5 Htp. split; [ rewrite (Hrun _ _ Hsl); exact Htp | ].
      destruct (take_profit_leg_orders G session _ _ _ _ _ _ Htp)
        as [[E' ->] | (t & p' & -> & E' & Ho')].
      * split; [ reflexivity | ]. split; [ intros E''; congruence | ].
        rewrite E'. lia.
      * simpl leg_requested. rewrite E'.
        split; [ intros E''; discriminate E'' | ].
        split; [ intros _; exists t, p'; split; [ reflexivity | exact Ho' ] | ].
        rewrite Ho', length_app. reflexivity.
Qed.

End LegOrderFacts.

(** C7 on the scripted exchange, with both percentages at 10. *)
Lemma legs_follow_percentages_witness :
  leg_requested (Some (Py.lit "10")) = true /\
  fst (place_market_order_spot_to_usdt (Demo.exchange_of Demo.btc) "BTC"
         Side.BUY (Py.lit "10") (Some (Py.lit "10")) (Some (Py.lit "10"))
         Demo.start) = Ok tt.
Proof.
  split; [ reflexivity | ].
  edestruct (legs_follow_percentages unit (Demo.exchange_of Demo.btc)
               "BTC" Side.BUY (Py.lit "10") (Py.lit "100") (Py.lit "0.0023")
               (Some (Py.lit "10")) (Some (Py.lit "10")) (VStr "1")
               Demo.start) as (_ & _ & _ & H);
    [ cbv; reflexivity | cbv; reflexivity | cbv; reflexivity | ].
  edestruct H as (_ & _ & _ & _ & H5); [ cbv; reflexivity | ].
  edestruct H5 as (Hrun & _); [ cbv; reflexivity | ].
  rewrite Hrun. reflexivity.
Defined.
